(** * Bed registry, bed assignment and patient registration of hms-backend

    A shallow embedding of the Flask backend: the [Bed] table of
    [models.py] with the handlers [get_beds], [create_or_update_bed] and
    [assign_bed] of [app.py], and the [Patient] table with the handlers
    [get_patients], [create_patient], [delete_patient] and
    [doctor_patients_query].

    What is embedded and how:
    - the parsed request body is a JSON value; [json.loads] failing is the
      payload [None].  A float is kept as far as the handlers and the
      database tell floats apart;
    - Python truthiness ([not x], [x or y]) and [dict.get] are written out;
      the [print] calls of the handlers are left out;
    - the table [bed] is a finite map from its primary key [bed_no]
      ([models.py], line 29) to the remaining columns;
    - the engine is SQLite ([app.py], line 20): a value bound to a column
      of TEXT affinity is compared and stored as text, [filter_by] is
      equality on both columns ([IS NULL] for [None]), and
      [Bed.ward.contains(x)] is rendered by SQLAlchemy as
      [ward LIKE '%' || x || '%'], SQLite's [LIKE];
    - an exception that leaves a handler is the outcome [Unhandled]; the
      request-scoped session is discarded, so the table is unchanged;
    - [assign_bed] is given a second time as a read followed by a write, to
      follow two requests whose reads and writes interleave. *)

From Stdlib Require Import ZArith Ascii String.
From stdpp Require Import gmap strings pretty list fin_maps.

Set Warnings "-register-all".
Local Open Scope string_scope.
Local Open Scope Z_scope.

(** ** JSON values and the Python operations applied to them *)

(** A Python [float] as the handlers and SQLite see it: not-a-number,
    zero (of either sign), an infinity, or another number.  The last is
    given by the text SQLite writes for it, which starts with a digit
    after an optional minus sign, as in [1.5], [-2.5] or [1.0e+300]. *)
Inductive pyfloat : Type :=
| FNan
| FZero
| FInf (negative : bool)
| FNum (negative : bool) (digit : N) (rest : string).

(** What [json.loads] returns.  [JStr s] is a [str] given by its UTF-8
    bytes; a [str] that holds a lone surrogate (from an escape such as
    [\ud800]) has no UTF-8 encoding and is not represented. *)
Inductive json : Type :=
| JNull
| JBool (b : bool)
| JInt (z : Z)
| JFloat (f : pyfloat)
| JStr (s : string)
| JArr (l : list json)
| JObj (d : gmap string json).

(** [bool(v)] in Python: [None], [False], [0], [''], [[]] and [{}] are false. *)
Definition truthy (v : json) : bool :=
  match v with
  | JNull => false
  | JBool b => b
  | JInt z => negb (z =? 0)%Z
  | JFloat f => match f with FZero => false | _ => true end
  | JStr s => match s with EmptyString => false | String _ _ => true end
  | JArr l => match l with [] => false | _ :: _ => true end
  | JObj d => negb (bool_decide (d = ∅))
  end.

(** [a or b] *)
Definition py_or (a b : json) : json := if truthy a then a else b.

(** [d.get(k)] and [d.get(k, dflt)] on a [dict] *)
Definition get (d : gmap string json) (k : string) : json :=
  default JNull (d !! k).

Definition get_default (d : gmap string json) (k : string) (dflt : json) : json :=
  default dflt (d !! k).

(** [v == 'literal'] for a string literal *)
Definition eq_str (v : json) (lit : string) : bool :=
  match v with
  | JStr s => bool_decide (s = lit)
  | _ => false
  end.

(** ** Exceptions and results *)

Inductive exn : Type :=
| AttributeError   (* [.get] on a value that is not a dict *)
| BindError        (* the driver cannot bind the value: list, dict, an
                      integer outside 64 bits *)
| IntegrityError   (* UNIQUE constraint failed: bed.bed_no *)
| ArgumentError    (* [contains] called with None, True or False *)
| OperationalError (* LIKE or GLOB pattern too complex *)
| StaleDataError.  (* an UPDATE of one row matched no row *)

Inductive result (A : Type) : Type :=
| Ok (a : A)
| Raise (e : exn).
Arguments Ok {A} a.
Arguments Raise {A} e.

(** Sequencing of calls that may raise: [x ← r; k] stops at the first
    exception. *)
#[global] Instance result_bind : MBind result := fun A B k r =>
  match r with
  | Ok a => k a
  | Raise e => Raise e
  end.

(** ** The table [bed] *)

(** Value of the INTEGER column [patient_id].  [PText s] is what SQLite
    keeps when the text [s] is bound to the column (the number [s] spells,
    or [s] itself when it spells none), and [PReal f] what it keeps for
    the float [f] (the integer [f] equals, or [f] itself when it equals
    none); the handlers never compare it. *)
Inductive pidval : Type :=
| PNull
| PInt (z : Z)
| PText (s : string)
| PReal (f : pyfloat).

Module Bed.

(** The columns of [class Bed] other than the primary key [bed_no]. *)
Record row : Type := mk {
  ward : option string;
  status : option string;
  patient_id : pidval
}.

End Bed.

Abbreviation table := (gmap string Bed.row).

Definition int64 (z : Z) : bool := (- 2 ^ 63 <=? z) && (z <? 2 ^ 63).

(** The text SQLite writes for a float; not-a-number is NULL. *)
Definition float_text (f : pyfloat) : option string :=
  match f with
  | FNan => None
  | FZero => Some "0.0"
  | FInf negative => Some (if negative then "-Inf" else "Inf")
  | FNum negative digit rest =>
      Some ((if negative then "-" else "") +:+ String (pretty_N_char digit) rest)
  end.

(** A Python value bound where a TEXT column is compared or written. *)
Definition bind_text (v : json) : result (option string) :=
  match v with
  | JNull => Ok None
  | JBool b => Ok (Some (if b then "1" else "0"))
  | JInt z => if int64 z then Ok (Some (pretty z)) else Raise BindError
  | JFloat f => Ok (float_text f)
  | JStr s => Ok (Some s)
  | JArr _ | JObj _ => Raise BindError
  end.

(** A Python value written to the INTEGER column [patient_id]. *)
Definition bind_integer (v : json) : result pidval :=
  match v with
  | JNull => Ok PNull
  | JBool b => Ok (PInt (if b then 1 else 0))
  | JInt z => if int64 z then Ok (PInt z) else Raise BindError
  | JFloat FNan => Ok PNull
  | JFloat FZero => Ok (PInt 0)
  | JFloat f => Ok (PReal f)
  | JStr s => Ok (PText s)
  | JArr _ | JObj _ => Raise BindError
  end.

(** SQLite's [LIKE], as [func.c] implements it.  Pattern and text are read
    as C strings, so up to their first NUL, and character by character;
    [%] stands for any run of characters, [_] for any one character, and
    ASCII letters match regardless of case.  No escape character is in
    force ([contains] is called without [autoescape]). *)
Definition fold_case (c : ascii) : ascii :=
  let n := N_of_ascii c in
  if ((65 <=? n) && (n <=? 90))%N then ascii_of_N (n + 32) else c.

(** ASCII lower case of a text, letter by letter. *)
Fixpoint lower (s : string) : string :=
  match s with
  | EmptyString => EmptyString
  | String c s' => String (fold_case c) (lower s')
  end.

Fixpoint cut_nul (s : string) : string :=
  match s with
  | EmptyString => EmptyString
  | String b s' => if Ascii.eqb b zero then EmptyString else String b (cut_nul s')
  end.

(** The characters of a UTF-8 text: a byte from 0xC0 on opens a character
    and takes in the continuation bytes (0x80 to 0xBF) that follow it; any
    other byte is a character by itself. *)
Definition is_lead (b : ascii) : bool := (192 <=? N_of_ascii b)%N.

Definition is_cont (b : ascii) : bool :=
  ((128 <=? N_of_ascii b) && (N_of_ascii b <? 192))%N.

Fixpoint absorb (c : string) (cs : list string) : list string :=
  match cs with
  | String b EmptyString :: cs' =>
      if is_cont b then absorb (c +:+ String b EmptyString) cs' else c :: cs
  | _ => c :: cs
  end.

Fixpoint chars (s : string) : list string :=
  match s with
  | EmptyString => []
  | String b s' =>
      if is_lead b then absorb (String b EmptyString) (chars s')
      else String b EmptyString :: chars s'
  end.

Fixpoint like_chars (p s : list string) : bool :=
  match p with
  | [] => match s with [] => true | _ :: _ => false end
  | c :: p' =>
      if String.eqb c "%" then
        (fix any (t : list string) : bool :=
           like_chars p' t ||
           match t with [] => false | _ :: t' => any t' end) s
      else
        match s with
        | [] => false
        | d :: s' =>
            (String.eqb c "_" || String.eqb (lower c) (lower d)) && like_chars p' s'
        end
  end.

Definition like (p s : string) : bool :=
  like_chars (chars (cut_nul p)) (chars (cut_nul s)).

(** [column.contains(x)]: [column LIKE '%' || x || '%'] *)
Definition contains (column x : string) : bool :=
  like ("%" +:+ x +:+ "%") column.

(** SQLite refuses a [LIKE] pattern of more than 50000 bytes. *)
Definition pattern_too_long (x : string) : bool :=
  (50000 <? N.of_nat (String.length ("%" +:+ x +:+ "%")))%N.

(** [column = value] as [filter_by] renders it: [IS NULL] for [None], else
    equality with the bound value, which a NULL parameter never meets. *)
Definition column_eq (column : option string) (value : json) (bound : option string)
  : bool :=
  match value with
  | JNull => bool_decide (column = None)
  | _ =>
      match bound with
      | Some x => bool_decide (column = Some x)
      | None => false
      end
  end.

(** [Bed.query.filter_by(bed_no=bed_no, ward=ward).first()]: at most one
    row has the given key. *)
Definition query_exact (tbl : table) (bed_no ward : json)
  : result (option (string * Bed.row)) :=
  b ← bind_text bed_no;
  w ← bind_text ward;
  Ok (match b with
      | Some b =>
          match tbl !! b with
          | Some bed =>
              if column_eq (Bed.ward bed) ward w then Some (b, bed) else None
          | None => None
          end
      | None => None
      end).

(** [Bed.query.filter(Bed.bed_no == bed_no, Bed.ward.contains(ward)).first()].
    SQLAlchemy refuses to build [contains] for None, True and False; the
    [LIKE] is evaluated for the row that has the bed number. *)
Definition query_fuzzy (tbl : table) (bed_no ward : json)
  : result (option (string * Bed.row)) :=
  match ward with
  | JNull | JBool _ => Raise ArgumentError
  | _ =>
      b ← bind_text bed_no;
      w ← bind_text ward;
      match b, w with
      | Some b, Some w =>
          match tbl !! b with
          | Some bed =>
              if pattern_too_long w then Raise OperationalError
              else
                Ok (match Bed.ward bed with
                    | Some stored => if contains stored w then Some (b, bed) else None
                    | None => None
                    end)
          | None => Ok None
          end
      | _, _ => Ok None
      end
  end.

(** [db.session.add(Bed(bed_no=.., ward=.., status=..)); db.session.commit()].
    A [status] of [None] is left out of the INSERT, so the column default
    ['Available'] applies; [patient_id] is not given and is NULL. *)
Definition insert_bed (tbl : table) (bed_no ward status : json)
  : result (table * (string * Bed.row)) :=
  b ← bind_text bed_no;
  w ← bind_text ward;
  s ← (match status with
        | JNull => Ok (Some "Available")
        | _ => bind_text status
        end);
  match b with
  | Some b =>
      match tbl !! b with
      | Some _ => Raise IntegrityError
      | None =>
          let bed := Bed.mk w s PNull in
          Ok (<[b := bed]> tbl, (b, bed))
      end
  | None => Raise IntegrityError   (* NOT NULL constraint failed: bed.bed_no *)
  end.

(** ** Responses *)

Inductive message : Type :=
| Literal (s : string)
| InvalidJSON                        (* f'Invalid JSON: {str(e)}' *)
| BedNotFound (bed_no ward : json).  (* f'Bed not found with bed_no={bed_no} and ward={ward}' *)

Inductive body : Type :=
| Msg (m : message)                                     (* {'msg': m} *)
| MsgBed (m : message) (bed_no : string) (bed : Bed.row)  (* msg and the four columns *)
| BedList (l : list (string * Bed.row)).                (* one object per row *)

Inductive outcome : Type :=
| Response (code : Z) (b : body)
| Unhandled (e : exn).

(** ** The handlers of [app.py]

    Each handler takes the table and the parsed request body ([None] when
    [json.loads(request.data)] raises) and returns the table after the
    request together with what the client receives. *)

(** [GET /beds], lines 177-183 *)
Definition get_beds (tbl : table) : table * outcome :=
  (tbl, Response 200 (BedList (map_to_list tbl))).

(** [POST /beds], lines 185-236 *)
Definition create_or_update_bed (tbl : table) (request_data : option json)
  : table * outcome :=
  match request_data with
  | None => (tbl, Response 400 (Msg InvalidJSON))
  | Some data =>
      if negb (truthy data) then (tbl, Response 400 (Msg (Literal "Empty payload")))
      else
        match data with
        | JObj d =>
            let bed_no := get d "bed_no" in
            let ward := get d "ward" in
            let status := get_default d "status" (JStr "Available") in
            if negb (truthy bed_no) || negb (truthy ward) then
              (tbl, Response 400 (Msg (Literal "bed_no and ward are required")))
            else
              match query_exact tbl bed_no ward with
              | Raise e => (tbl, Unhandled e)
              | Ok (Some (k, bed)) =>
                  (* bed.status = status; patient_id cleared on 'Available'; commit *)
                  match bind_text status with
                  | Raise e => (tbl, Unhandled e)
                  | Ok s =>
                      let bed' :=
                        Bed.mk (Bed.ward bed) s
                          (if eq_str status "Available" then PNull
                           else Bed.patient_id bed) in
                      (<[k := bed']> tbl,
                       Response 200 (MsgBed (Literal "Bed status updated") k bed'))
                  end
              | Ok None =>
                  match insert_bed tbl bed_no ward status with
                  | Raise e => (tbl, Unhandled e)
                  | Ok (tbl', (k, bed)) =>
                      (tbl', Response 201 (MsgBed (Literal "Bed created") k bed))
                  end
              end
        | _ => (tbl, Unhandled AttributeError)
        end
  end.

(** Lines 260-263: the exact query, and the [contains] query when the
    exact one finds nothing. *)
Definition resolve (tbl : table) (bed_no ward : json)
  : result (option (string * Bed.row)) :=
  bed ← query_exact tbl bed_no ward;
  match bed with
  | Some _ => Ok bed
  | None => query_fuzzy tbl bed_no ward
  end.

(** [POST /assign-bed], lines 238-281 *)
Definition assign_bed (tbl : table) (request_data : option json)
  : table * outcome :=
  match request_data with
  | None => (tbl, Response 400 (Msg InvalidJSON))
  | Some data =>
      if negb (truthy data) then (tbl, Response 400 (Msg (Literal "Empty payload")))
      else
        match data with
        | JObj d =>
            let bed_no := py_or (get d "bed_no") (get d "bedNo") in
            let ward := get d "ward" in
            let patient_id := py_or (get d "patient_id") (get d "patientId") in
            if negb (truthy bed_no) || negb (truthy ward) || negb (truthy patient_id) then
              (tbl, Response 400 (Msg (Literal "bed_no, ward, and patient_id are required")))
            else
              match resolve tbl bed_no ward with
              | Raise e => (tbl, Unhandled e)
              | Ok None => (tbl, Response 404 (Msg (BedNotFound bed_no ward)))
              | Ok (Some (k, bed)) =>
                  if bool_decide (Bed.status bed = Some "Occupied") then
                    (tbl, Response 400 (Msg (Literal "Bed already occupied")))
                  else
                    (* bed.status = 'Occupied'; bed.patient_id = patient_id; commit *)
                    match bind_integer patient_id with
                    | Raise e => (tbl, Unhandled e)
                    | Ok p =>
                        let bed' := Bed.mk (Bed.ward bed) (Some "Occupied") p in
                        (<[k := bed']> tbl,
                         Response 200 (MsgBed (Literal "Bed assigned") k bed'))
                    end
              end
        | _ => (tbl, Unhandled AttributeError)
        end
  end.

(** ** Requests and reachable registries *)

Inductive request : Type :=
| GET_beds
| POST_beds (request_data : option json)
| POST_assign_bed (request_data : option json).

Definition handle (tbl : table) (r : request) : table * outcome :=
  match r with
  | GET_beds => get_beds tbl
  | POST_beds request_data => create_or_update_bed tbl request_data
  | POST_assign_bed request_data => assign_bed tbl request_data
  end.

(** The registry after a sequence of requests, oldest first. *)
Definition run (tbl : table) (rs : list request) : table :=
  foldl (fun t r => fst (handle t r)) tbl rs.

(** Registries that a sequence of requests produces from the empty table
    that [db.create_all()] sets up. *)
Definition reachable (tbl : table) : Prop := exists rs, tbl = run ∅ rs.

(** The payload of [upsert(b, w, s)] and of [assignBed(b, w, p)]. *)
Definition upsert_payload (b w s : json) : option json :=
  Some (JObj (<["bed_no" := b]> (<["ward" := w]> {["status" := s]}))).

Definition assign_payload (b w p : json) : option json :=
  Some (JObj (<["bed_no" := b]> (<["ward" := w]> {["patient_id" := p]}))).

(** Requests whose [POST /beds] payload leaves [status] out or gives one
    of the two statuses of the data model. *)
Definition status_checked (r : request) : Prop :=
  match r with
  | POST_beds (Some (JObj d)) =>
      d !! "status" = None \/
      d !! "status" = Some (JStr "Available") \/
      d !! "status" = Some (JStr "Occupied")
  | _ => True
  end.

(** Case-sensitive containment as the specification words it: Python's
    [x in s] on strings, character by character.  It is compared with
    [contains] below. *)
Fixpoint starts_with (x s : list string) : bool :=
  match x, s with
  | [], _ => true
  | _ :: _, [] => false
  | a :: x', b :: s' => String.eqb a b && starts_with x' s'
  end.

Fixpoint infix_of (x s : list string) : bool :=
  starts_with x s ||
  match s with
  | [] => false
  | _ :: s' => infix_of x s'
  end.

Definition py_in (x s : string) : bool := infix_of (chars x) (chars s).

(** Last character of a text, used to tell decimal renderings apart from
    status words. *)
Fixpoint last_char (s : string) : option ascii :=
  match s with
  | EmptyString => None
  | String c EmptyString => Some c
  | String _ s' => last_char s'
  end.

Definition is_digit (c : ascii) : bool :=
  let n := N_of_ascii c in ((48 <=? n) && (n <=? 57))%N.

(** Every way a request can end, with the table it leaves behind. *)
Inductive served (tbl : table) : table * outcome -> Prop :=
| served_read l :
    served tbl (tbl, Response 200 (BedList l))
| served_refused code m :
    code = 400 \/ code = 404 -> served tbl (tbl, Response code (Msg m))
| served_raised e :
    served tbl (tbl, Unhandled e)
| served_updated k bed bed' m :
    tbl !! k = Some bed -> Bed.ward bed' = Bed.ward bed ->
    served tbl (<[k := bed']> tbl, Response 200 (MsgBed m k bed'))
| served_created k bed' m :
    tbl !! k = None ->
    served tbl (<[k := bed']> tbl, Response 201 (MsgBed m k bed')).

(** ** The table [patient] and the registrar handlers of [app.py] *)

(** What [request.json] does inside a handler: Flask answers 415 when the
    request does not declare a JSON body, 400 when the body does not
    parse, and else hands over the parsed value. *)
Inductive request_json : Type :=
| NotJson
| Malformed
| Json (data : json).

Module Patient.

(** The columns of [class Patient] other than the primary key [id];
    [name] is declared [nullable=False]. *)
Record row : Type := mk {
  name : string;
  age : pidval;
  gender : option string;
  symptoms : option string;
  date : option string;
  doctor_id : option string
}.

End Patient.

Abbreviation patients := (gmap Z Patient.row).

(** What ends a registrar handler early: [data['name']] on a dict without
    the key, or one of the exceptions above. *)
Inductive crash : Type :=
| KeyError (k : string)
| Raised (e : exn).

(** The largest [id] in use, if any. *)
Definition max_id (tbl : patients) : option Z :=
  map_fold (fun k _ m => Some (match m with Some x => Z.max k x | None => k end))
    None tbl.

(** The [id] SQLite gives to a row inserted without one: 1 in an empty
    table, else one more than the largest [id] in use.  (This is its rule
    as long as the result fits 64 bits.) *)
Definition next_id (tbl : patients) : Z :=
  match max_id tbl with
  | Some m => m + 1
  | None => 1
  end.

(** [db.session.add(Patient(...)); db.session.commit()]: every value is
    bound, [name] must not be NULL, and the row gets the next [id]. *)
Definition insert_patient (tbl : patients)
    (name age gender symptoms date doctor_id : json)
  : result (patients * (Z * Patient.row)) :=
  n ← bind_text name;
  a ← bind_integer age;
  g ← bind_text gender;
  s ← bind_text symptoms;
  t ← bind_text date;
  doc ← bind_text doctor_id;
  match n with
  | None => Raise IntegrityError   (* NOT NULL constraint failed: patient.name *)
  | Some n =>
      let p := Patient.mk n a g s t doc in
      Ok (<[next_id tbl := p]> tbl, (next_id tbl, p))
  end.

Inductive patient_body : Type :=
| PErrorPage                                               (* Flask's page for an HTTP error *)
| PMsg (m : string)                                        (* {'msg': m} *)
| PatientBody (m : string) (id : Z) (p : Patient.row)      (* msg, id and the columns *)
| PatientList (l : list (Z * Patient.row))                 (* id and the columns, per row *)
| DoctorPatientList (l : list (Z * (string * option string * option string))).
                                                           (* id, name, symptoms, doctor_id *)

Inductive patient_outcome : Type :=
| PResponse (code : Z) (b : patient_body)
| PUnhandled (c : crash).

(** [GET /patients], lines 107-120 *)
Definition get_patients (tbl : patients) : patients * patient_outcome :=
  (tbl, PResponse 200 (PatientList (map_to_list tbl))).

(** [POST /patients], lines 122-147 *)
Definition create_patient (tbl : patients) (request : request_json)
  : patients * patient_outcome :=
  match request with
  | NotJson => (tbl, PResponse 415 PErrorPage)
  | Malformed => (tbl, PResponse 400 PErrorPage)
  | Json (JObj d) =>
      let doctor_id := py_or (get d "doctor_id") (get d "doctorId") in
      match d !! "name" with
      | None => (tbl, PUnhandled (KeyError "name"))
      | Some name =>
          match insert_patient tbl name (get d "age") (get d "gender")
                  (get d "symptoms") (get d "date") doctor_id with
          | Raise e => (tbl, PUnhandled (Raised e))
          | Ok (tbl', (id, patient)) =>
              (tbl', PResponse 201 (PatientBody "Patient registered" id patient))
          end
      end
  | _ => (tbl, PUnhandled (Raised AttributeError))
  end.

(** [DELETE /patients/<int:patient_id>], lines 149-156 *)
Definition delete_patient (tbl : patients) (patient_id : Z)
  : patients * patient_outcome :=
  if int64 patient_id then
    match tbl !! patient_id with
    | None => (tbl, PResponse 404 (PMsg "Patient not found"))
    | Some _ => (delete patient_id tbl, PResponse 200 (PMsg "Patient deleted"))
    end
  else (tbl, PUnhandled (Raised BindError)).

(** [GET /doctor/patients], lines 163-171; [doctor_id] is
    [request.args.get('doctor_id')]. *)
Definition doctor_patients_query (tbl : patients) (doctor_id : option string)
  : patients * patient_outcome :=
  let selected :=
    match doctor_id with
    | Some (String c s) =>
        filter (fun kp => Patient.doctor_id kp.2 = Some (String c s)) tbl
    | _ => tbl
    end in
  (tbl,
   PResponse 200
     (DoctorPatientList
        ((fun kp => (kp.1, (Patient.name kp.2, Patient.symptoms kp.2,
                            Patient.doctor_id kp.2)))
           <$> map_to_list selected))).

(** ** [POST /assign-bed] as a read and a write

    Lines 240-270 only read the table; lines 272-281 write the row that
    was read and answer.  Nothing in the source ties the two together, so
    another request can be served between them. *)

(** What the read leaves for the write: the bed number, the row as it was
    loaded, and the patient id of the request. *)
Record pending : Type := mk_pending {
  pending_key : string;
  pending_loaded : Bed.row;
  pending_patient : json
}.

(** Lines 240-270: the answer, when the request ends there, or the write
    that is left to do. *)
Definition assign_bed_check (tbl : table) (request_data : option json)
  : outcome + pending :=
  match request_data with
  | None => inl (Response 400 (Msg InvalidJSON))
  | Some data =>
      if negb (truthy data) then inl (Response 400 (Msg (Literal "Empty payload")))
      else
        match data with
        | JObj d =>
            let bed_no := py_or (get d "bed_no") (get d "bedNo") in
            let ward := get d "ward" in
            let patient_id := py_or (get d "patient_id") (get d "patientId") in
            if negb (truthy bed_no) || negb (truthy ward) || negb (truthy patient_id) then
              inl (Response 400 (Msg (Literal "bed_no, ward, and patient_id are required")))
            else
              match resolve tbl bed_no ward with
              | Raise e => inl (Unhandled e)
              | Ok None => inl (Response 404 (Msg (BedNotFound bed_no ward)))
              | Ok (Some (k, bed)) =>
                  if bool_decide (Bed.status bed = Some "Occupied") then
                    inl (Response 400 (Msg (Literal "Bed already occupied")))
                  else inr (mk_pending k bed patient_id)
              end
        | _ => inl (Unhandled AttributeError)
        end
  end.

#[global] Instance pyfloat_eq_dec : EqDecision pyfloat.
Proof. solve_decision. Defined.

#[global] Instance pidval_eq_dec : EqDecision pidval.
Proof. solve_decision. Defined.

(** Python's [==] between the patient id that was loaded and the one of
    the request, where the stored value is known well enough to tell. *)
Definition py_equal (loaded : pidval) (v : json) : option bool :=
  match loaded, v with
  | _, JFloat FNan => Some false
  | PNull, JNull => Some true
  | PNull, _ => Some false
  | _, (JNull | JArr _ | JObj _) => Some false
  | PInt z, JInt z' => Some (z =? z')
  | PInt z, JBool b => Some (z =? (if b then 1 else 0))
  | PInt z, JFloat FZero => Some (z =? 0)
  | PInt _, JFloat (FInf _) => Some false
  | PInt _, JStr _ => Some false
  | PInt _, JFloat (FNum _ _ _) => None
  | PText s, JStr s' => if bool_decide (s = s') then None else Some false
  | PText _, _ => None
  | PReal _, JStr _ => Some false
  | PReal _, _ => None
  end.

(** Lines 272-281: the UPDATE of the row with the loaded bed number sets
    the columns whose value differs from the loaded one, and the answer
    shows the row as it is afterwards.  [None] marks the one case the
    values kept here cannot decide: whether a patient id equal to the
    loaded one leaves a column that has changed since untouched. *)
Definition assign_bed_write (tbl : table) (w : pending)
  : option (table * outcome) :=
  match bind_integer (pending_patient w) with
  | Raise e => Some (tbl, Unhandled e)
  | Ok p =>
      match tbl !! pending_key w with
      | None => Some (tbl, Unhandled StaleDataError)
      | Some cur =>
          let loaded := pending_loaded w in
          let status :=
            if bool_decide (Bed.status loaded = Some "Occupied") then Bed.status cur
            else Some "Occupied" in
          patient ←
            match py_equal (Bed.patient_id loaded) (pending_patient w) with
            | Some true => Some (Bed.patient_id cur)
            | Some false => Some p
            | None =>
                if bool_decide (Bed.patient_id cur = Bed.patient_id loaded)
                then Some p else None
            end;
          let bed' := Bed.mk (Bed.ward cur) status patient in
          Some (<[pending_key w := bed']> tbl,
                Response 200 (MsgBed (Literal "Bed assigned") (pending_key w) bed'))
      end
  end.

Definition assign_bed_finish (tbl : table) (c : outcome + pending)
  : option (table * outcome) :=
  match c with
  | inl answer => Some (tbl, answer)
  | inr w => assign_bed_write tbl w
  end.

(** Two requests one after the other: read, write, read, write. *)
Definition serial (tbl : table) (r1 r2 : option json)
  : option (table * outcome * outcome) :=
  '(tbl1, answer1) ← assign_bed_finish tbl (assign_bed_check tbl r1);
  '(tbl2, answer2) ← assign_bed_finish tbl1 (assign_bed_check tbl1 r2);
  Some (tbl2, answer1, answer2).

(** Two requests that both read before either writes. *)
Definition interleaved (tbl : table) (r1 r2 : option json)
  : option (table * outcome * outcome) :=
  let c1 := assign_bed_check tbl r1 in
  let c2 := assign_bed_check tbl r2 in
  '(tbl1, answer1) ← assign_bed_finish tbl c1;
  '(tbl2, answer2) ← assign_bed_finish tbl1 c2;
  Some (tbl2, answer1, answer2).

(** ** The fuzzy match in words

    A pattern matches a text when the text can be cut so that every [%] of
    the pattern takes a run of characters, every [_] one character, and
    every other character one character equal to it up to the case of
    ASCII letters. *)
Definition char_matches (c d : string) : Prop :=
  c = "_" \/ lower c = lower d.

Inductive like_spec : list string -> list string -> Prop :=
| like_spec_end : like_spec [] []
| like_spec_run p run s :
    like_spec p s -> like_spec ("%" :: p) (run ++ s)
| like_spec_char c p d s :
    c <> "%" -> char_matches c d -> like_spec p s ->
    like_spec (c :: p) (d :: s).

(** A text without a NUL character *)
Definition nul_free (s : string) : Prop := cut_nul s = s.

(** ** Sanity checks on concrete requests (section 8 of the specification) *)

Example e2e_create :
  create_or_update_bed ∅
    (Some (JObj (<["bed_no" := JStr "101"]> {["ward" := JStr "Ward A"]})))
  = ({["101" := Bed.mk (Some "Ward A") (Some "Available") PNull]},
     Response 201 (MsgBed (Literal "Bed created") "101"
                     (Bed.mk (Some "Ward A") (Some "Available") PNull))).
Proof. vm_compute. reflexivity. Qed.

Example e2e_assign :
  assign_bed {["101" := Bed.mk (Some "Ward A") (Some "Available") PNull]}
    (assign_payload (JStr "101") (JStr "Ward A") (JInt 7))
  = ({["101" := Bed.mk (Some "Ward A") (Some "Occupied") (PInt 7)]},
     Response 200 (MsgBed (Literal "Bed assigned") "101"
                     (Bed.mk (Some "Ward A") (Some "Occupied") (PInt 7)))).
Proof. vm_compute. reflexivity. Qed.

Example e2e_assign_again :
  assign_bed {["101" := Bed.mk (Some "Ward A") (Some "Occupied") (PInt 7)]}
    (assign_payload (JStr "101") (JStr "Ward A") (JInt 7))
  = ({["101" := Bed.mk (Some "Ward A") (Some "Occupied") (PInt 7)]},
     Response 400 (Msg (Literal "Bed already occupied"))).
Proof. vm_compute. reflexivity. Qed.

Example like_examples :
  contains "Ward A" "A" = true /\ contains "Ward A" "a" = true /\
  contains "Ward A" "B" = false /\ contains "Ward A" "W_r" = true /\
  contains "Ward A" "" = true /\ contains "Ward A" "Ward A " = false.
Proof. vm_compute. repeat split. Qed.

Example numeric_key :
  bind_text (JInt 101) = Ok (Some "101") /\ bind_text (JInt (-5)) = Ok (Some "-5").
Proof. vm_compute. split; reflexivity. Qed.

(** ** Auxiliary facts *)

(** *** Decimal renderings never spell a status word *)

Lemma last_char_cons c s : s <> EmptyString -> last_char (String c s) = last_char s.
Proof. destruct s; [congruence | reflexivity]. Qed.

Lemma pretty_N_char_digit x : is_digit (pretty_N_char x) = true.
Proof.
  unfold pretty_N_char.
  repeat (match goal with |- context [match ?p with _ => _ end] => destruct p end;
          try reflexivity).
Qed.

Lemma last_char_pretty_N_go x s :
  s <> EmptyString -> last_char (pretty_N_go x s) = last_char s.
Proof.
  revert s. induction (N.lt_wf_0 x) as [x _ IH]; intros s Hs.
  destruct (decide (x = 0%N)) as [->|Hx].
  - by rewrite pretty_N_go_0.
  - rewrite pretty_N_go_step by lia.
    rewrite IH; [by apply last_char_cons | apply N.div_lt; lia | discriminate].
Qed.

Lemma last_char_pretty_pos (p : positive) :
  exists c, last_char (pretty (Npos p)) = Some c /\ is_digit c = true.
Proof.
  unfold pretty, pretty_N. rewrite decide_False by discriminate.
  rewrite pretty_N_go_step by lia.
  rewrite last_char_pretty_N_go by discriminate.
  eexists; split; [reflexivity | apply pretty_N_char_digit].
Qed.

Lemma last_char_pretty_Z (z : Z) :
  exists c, last_char (pretty z) = Some c /\ is_digit c = true.
Proof.
  destruct z as [|p|p]; unfold pretty, pretty_Z.
  - by exists "0"%char.
  - apply last_char_pretty_pos.
  - destruct (last_char_pretty_pos p) as (c & Hc & Hd).
    exists c; split; [| done].
    change (pretty p) with (pretty (Npos p)).
    destruct (pretty (N.pos p)) as [|a s] eqn:E; [discriminate |].
    change ("-" +:+ String a s) with (String "-" (String a s)).
    by rewrite last_char_cons.
Qed.

(** Only the string "Available" is bound as the text "Available". *)
Lemma bind_text_Available v :
  bind_text v = Ok (Some "Available") -> v = JStr "Available".
Proof.
  intros Hb. destruct v as [|b|z|f|t|l|d]; simpl in Hb; try discriminate.
  - by destruct b.
  - destruct (int64 z); [| discriminate]. injection Hb as E.
    destruct (last_char_pretty_Z z) as (c & Hc & Hd).
    rewrite E in Hc. simpl in Hc. injection Hc as <-. discriminate Hd.
  - destruct f as [| |[]|[] n rest]; simpl in Hb; try discriminate.
    injection Hb as E _. pose proof (pretty_N_char_digit n) as Hd.
    rewrite E in Hd. discriminate Hd.
  - congruence.
Qed.

(** *** [LIKE] on characters *)

Lemma like_chars_percent p s :
  like_chars ("%" :: p) s =
  like_chars p s || match s with
                    | [] => false
                    | _ :: s' => like_chars ("%" :: p) s'
                    end.
Proof. destruct s; reflexivity. Qed.

Lemma like_chars_here p s :
  like_chars p s = true -> like_chars ("%" :: p) s = true.
Proof. intros H. rewrite like_chars_percent, H. reflexivity. Qed.

Lemma like_chars_skip p c s :
  like_chars ("%" :: p) s = true -> like_chars ("%" :: p) (c :: s) = true.
Proof. intros H. rewrite like_chars_percent, H. apply orb_true_r. Qed.

Lemma like_chars_run p run s :
  like_chars p s = true -> like_chars ("%" :: p) (run ++ s) = true.
Proof.
  intros H. induction run as [|c run IH]; simpl.
  - by apply like_chars_here.
  - by apply like_chars_skip.
Qed.

Lemma like_chars_all s : like_chars ["%"] s = true.
Proof.
  induction s as [|c s IH]; [reflexivity |]. by apply like_chars_skip.
Qed.

Lemma like_chars_cons c p d s :
  String.eqb c "%" = false ->
  like_chars (c :: p) (d :: s) =
  (String.eqb c "_" || String.eqb (lower c) (lower d)) && like_chars p s.
Proof. intros H. simpl. by rewrite H. Qed.

Lemma like_chars_cons_nil c p :
  String.eqb c "%" = false -> like_chars (c :: p) [] = false.
Proof. intros H. simpl. by rewrite H. Qed.

(** The function that runs and the match in words agree. *)
Lemma like_chars_spec p s : like_chars p s = true <-> like_spec p s.
Proof.
  split.
  - revert s. induction p as [|c p IH]; intros s H.
    + destruct s; [constructor | discriminate].
    + destruct (String.eqb c "%") eqn:E.
      * apply String.eqb_eq in E as ->.
        induction s as [|d s IHs].
        -- rewrite like_chars_percent, orb_false_r in H.
           apply (like_spec_run p [] []). by apply IH.
        -- rewrite like_chars_percent in H. apply orb_true_iff in H as [H|H].
           ++ apply (like_spec_run p [] (d :: s)). by apply IH.
           ++ specialize (IHs H). inversion IHs as [|p' run s' Hs|]; subst.
              ** apply (like_spec_run p (d :: run) s'). done.
              ** congruence.
      * destruct s as [|d s]; [by rewrite like_chars_cons_nil in H |].
        rewrite like_chars_cons in H by done.
        apply andb_true_iff in H as [Hc Hs].
        apply like_spec_char.
        -- intros ->. discriminate.
        -- apply orb_true_iff in Hc as [Hc|Hc]; apply String.eqb_eq in Hc;
             [by left | by right].
        -- by apply IH.
  - induction 1 as [|p run s _ IH|c p d s Hc Hm _ IH].
    + reflexivity.
    + by apply like_chars_run.
    + rewrite like_chars_cons by by apply String.eqb_neq.
      rewrite IH, andb_true_r. apply orb_true_iff.
      destruct Hm as [->|Hm]; [by left | right; by apply String.eqb_eq].
Qed.

(** *** Characters of a text *)

Lemma chars_ascii b s :
  is_lead b = false -> chars (String b s) = String b "" :: chars s.
Proof. intros H. simpl. by rewrite H. Qed.

Lemma absorb_snoc_ascii c cs b :
  is_cont b = false ->
  absorb c (cs ++ [String b ""])%list = (absorb c cs ++ [String b ""])%list.
Proof.
  intros Hb. revert c. induction cs as [|g cs IH]; intros c; simpl.
  - by rewrite Hb.
  - destruct g as [|a [|a' g]]; try done.
    destruct (is_cont a); [apply IH | done].
Qed.

Lemma chars_snoc_ascii s b :
  is_lead b = false -> is_cont b = false ->
  chars (s +:+ String b "") = (chars s ++ [String b ""])%list.
Proof.
  intros Hl Hc. induction s as [|a s IH].
  - simpl. by rewrite Hl.
  - change (String a s +:+ String b "") with (String a (s +:+ String b "")).
    simpl. rewrite IH. destruct (is_lead a); [| done].
    by apply absorb_snoc_ascii.
Qed.

Lemma cut_nul_app s t :
  cut_nul (s +:+ t) =
  if bool_decide (cut_nul s = s) then s +:+ cut_nul t else cut_nul s.
Proof.
  induction s as [|a s IH].
  - by rewrite bool_decide_eq_true_2.
  - change (String a s +:+ t) with (String a (s +:+ t)). simpl.
    destruct (Ascii.eqb a zero) eqn:E; [by rewrite bool_decide_eq_false_2 |].
    rewrite IH. case_bool_decide as H.
    + rewrite bool_decide_eq_true_2 by by rewrite H. done.
    + rewrite bool_decide_eq_false_2; [done |]. intros [= ?]. done.
Qed.

Lemma pattern_chars x :
  nul_free x ->
  chars (cut_nul ("%" +:+ x +:+ "%")) = ("%" :: chars x ++ ["%"])%list.
Proof.
  intros Hx. change ("%" +:+ x +:+ "%") with (String "%" (x +:+ "%")).
  cbn [cut_nul]. change (Ascii.eqb "%" zero) with false. cbv iota.
  rewrite cut_nul_app, bool_decide_eq_true_2 by done.
  change (cut_nul "%") with "%".
  rewrite chars_ascii by done. by rewrite chars_snoc_ascii.
Qed.

(** *** A substring is matched *)

Lemma like_chars_same c p s :
  like_chars p s = true -> like_chars (c :: p) (c :: s) = true.
Proof.
  intros H. destruct (String.eqb c "%") eqn:E.
  - apply String.eqb_eq in E as ->. by apply like_chars_skip, like_chars_here.
  - rewrite like_chars_cons by done. rewrite H, String.eqb_refl.
    by rewrite orb_true_r.
Qed.

Lemma like_chars_starts_with x s :
  starts_with x s = true -> like_chars (x ++ ["%"])%list s = true.
Proof.
  revert s. induction x as [|a x IH]; intros s H.
  - apply like_chars_all.
  - destruct s as [|b s]; [discriminate |].
    simpl in H. apply andb_true_iff in H as [Hab Hx].
    apply String.eqb_eq in Hab as <-.
    simpl. by apply like_chars_same, IH.
Qed.

Lemma like_chars_infix x s :
  infix_of x s = true -> like_chars ("%" :: x ++ ["%"])%list s = true.
Proof.
  induction s as [|c s IH]; simpl infix_of; intros H.
  - rewrite orb_false_r in H. by apply like_chars_here, like_chars_starts_with.
  - apply orb_true_iff in H as [H|H].
    + by apply like_chars_here, like_chars_starts_with.
    + by apply like_chars_skip, IH.
Qed.

(** Whatever is contained in the stored text in Python's sense is also
    matched by the [LIKE] that [contains] runs, as long as neither text
    has a NUL character. *)
Lemma py_in_contains x s :
  nul_free x -> nul_free s -> py_in x s = true -> contains s x = true.
Proof.
  intros Hx Hs H. unfold contains, like. rewrite pattern_chars by done.
  rewrite Hs. by apply like_chars_infix.
Qed.

Lemma contains_spec stored x :
  contains stored x = true <->
  like_spec (chars (cut_nul ("%" +:+ x +:+ "%"))) (chars (cut_nul stored)).
Proof. unfold contains, like. apply like_chars_spec. Qed.

Lemma contains_percent stored : contains stored "%" = true.
Proof.
  unfold contains, like. change (chars (cut_nul ("%" +:+ "%" +:+ "%"))) with ["%"; "%"; "%"].
  by apply like_chars_here, like_chars_here, like_chars_all.
Qed.

(** *** Letter case *)

Lemma fold_case_idem c : fold_case (fold_case c) = fold_case c.
Proof. by destruct c as [[] [] [] [] [] [] [] []]. Qed.

Lemma fold_case_zero c : Ascii.eqb (fold_case c) zero = Ascii.eqb c zero.
Proof. by destruct c as [[] [] [] [] [] [] [] []]. Qed.

Lemma fold_case_lead c : is_lead (fold_case c) = is_lead c.
Proof. by destruct c as [[] [] [] [] [] [] [] []]. Qed.

Lemma fold_case_cont c : is_cont (fold_case c) = is_cont c.
Proof. by destruct c as [[] [] [] [] [] [] [] []]. Qed.

Lemma fold_case_percent c : Ascii.eqb (fold_case c) "%" = Ascii.eqb c "%".
Proof. by destruct c as [[] [] [] [] [] [] [] []]. Qed.

Lemma fold_case_underscore c : Ascii.eqb (fold_case c) "_" = Ascii.eqb c "_".
Proof. by destruct c as [[] [] [] [] [] [] [] []]. Qed.

Lemma lower_idem s : lower (lower s) = lower s.
Proof. induction s as [|c s IH]; [done |]. cbn [lower]. by rewrite fold_case_idem, IH. Qed.

Lemma lower_app s t : lower (s +:+ t) = lower s +:+ lower t.
Proof. induction s as [|c s IH]; [done |]. simpl. rewrite IH. reflexivity. Qed.

Lemma lower_length s : String.length (lower s) = String.length s.
Proof. induction s as [|c s IH]; [done |]. simpl. by rewrite IH. Qed.

Lemma cut_nul_lower s : cut_nul (lower s) = lower (cut_nul s).
Proof.
  induction s as [|c s IH]; [done |]. simpl. rewrite fold_case_zero.
  destruct (Ascii.eqb c zero); [done |]. simpl. by rewrite IH.
Qed.

Lemma absorb_lower c cs :
  absorb (lower c) (lower <$> cs) = lower <$> absorb c cs.
Proof.
  revert c. induction cs as [|g cs IH]; intros c; [done |].
  destruct g as [|a [|a' g]]; try done.
  simpl. rewrite fold_case_cont. destruct (is_cont a); [| done].
  rewrite <- IH. by rewrite lower_app.
Qed.

Lemma chars_lower s : chars (lower s) = lower <$> chars s.
Proof.
  induction s as [|b s IH]; [done |]. simpl. rewrite fold_case_lead, IH.
  destruct (is_lead b); [| done].
  by rewrite <- absorb_lower.
Qed.

Lemma lower_eqb_percent c : String.eqb (lower c) "%" = String.eqb c "%".
Proof.
  destruct c as [|a [|a' c]]; simpl; rewrite ?fold_case_percent; try done;
    by destruct (Ascii.eqb a _).
Qed.

Lemma lower_eqb_underscore c : String.eqb (lower c) "_" = String.eqb c "_".
Proof.
  destruct c as [|a [|a' c]]; simpl; rewrite ?fold_case_underscore; try done;
    by destruct (Ascii.eqb a _).
Qed.

Lemma like_chars_lower p s :
  like_chars (lower <$> p) (lower <$> s) = like_chars p s.
Proof.
  revert s. induction p as [|c p IH]; intros s.
  - by destruct s.
  - cbn [fmap list_fmap]. destruct (String.eqb c "%") eqn:E.
    + apply String.eqb_eq in E as ->. change (lower "%") with "%".
      induction s as [|d s IHs].
      * pose proof (IH []) as H0. cbn [fmap list_fmap] in *.
        by rewrite !like_chars_percent, H0.
      * pose proof (IH (d :: s)) as H0. cbn [fmap list_fmap] in *.
        by rewrite (like_chars_percent (lower <$> p)), (like_chars_percent p), IHs, H0.
    + destruct s as [|d s]; cbn [fmap list_fmap].
      * by rewrite !like_chars_cons_nil by by rewrite ?lower_eqb_percent.
      * rewrite !like_chars_cons by by rewrite ?lower_eqb_percent.
        by rewrite lower_eqb_underscore, !lower_idem, IH.
Qed.

Lemma like_lower p s : like (lower p) (lower s) = like p s.
Proof.
  unfold like. by rewrite !cut_nul_lower, !chars_lower, like_chars_lower.
Qed.

Lemma like_lower_pattern p s : like (lower p) s = like p s.
Proof. by rewrite <- (like_lower (lower p) s), lower_idem, like_lower. Qed.

Lemma like_lower_subject p s : like p (lower s) = like p s.
Proof. by rewrite <- (like_lower p (lower s)), lower_idem, like_lower. Qed.

(** *** What the queries return *)

Lemma query_exact_Some tbl bed_no ward k bed :
  query_exact tbl bed_no ward = Ok (Some (k, bed)) ->
  tbl !! k = Some bed /\ bind_text bed_no = Ok (Some k) /\
  bind_text ward = Ok (Bed.ward bed).
Proof.
  unfold query_exact, mbind, result_bind. intros H.
  destruct (bind_text bed_no) as [[b|]|], (bind_text ward) as [w|] eqn:Bw;
    simplify_eq/=.
  destruct (tbl !! b) as [bed0|] eqn:E; simplify_eq/=.
  destruct (column_eq (Bed.ward bed0) ward w) eqn:C; simplify_eq/=.
  split; [done |]. split; [done |]. f_equal.
  unfold column_eq in C.
  destruct ward; simpl in Bw; simplify_eq/=;
    repeat case_match; simplify_eq/=; by case_bool_decide.
Qed.

Lemma query_fuzzy_Some tbl bed_no ward k bed :
  query_fuzzy tbl bed_no ward = Ok (Some (k, bed)) ->
  tbl !! k = Some bed /\ bind_text bed_no = Ok (Some k).
Proof.
  unfold query_fuzzy, mbind, result_bind. intros H.
  assert (match bind_text bed_no with
          | Ok (Some b) =>
              match tbl !! b with
              | Some bed0 => b = k /\ bed0 = bed
              | None => False
              end
          | _ => False
          end) as H'.
  { destruct ward; try discriminate;
      destruct (bind_text bed_no) as [[b|]|]; try discriminate;
      repeat case_match; simplify_eq/=; done. }
  destruct (bind_text bed_no) as [[b|]|]; try done.
  destruct (tbl !! b) as [bed0|] eqn:E; [| done].
  by destruct H' as [-> ->].
Qed.

Lemma resolve_Some tbl bed_no ward k bed :
  resolve tbl bed_no ward = Ok (Some (k, bed)) ->
  tbl !! k = Some bed /\ bind_text bed_no = Ok (Some k).
Proof.
  unfold resolve, mbind, result_bind. intros H.
  destruct (query_exact tbl bed_no ward) as [[[k0 bed0]|]|] eqn:E; simplify_eq/=.
  - simplify_eq. apply query_exact_Some in E. tauto.
  - by apply query_fuzzy_Some in H.
Qed.

Lemma insert_bed_Ok tbl bed_no ward status tbl' k bed :
  insert_bed tbl bed_no ward status = Ok (tbl', (k, bed)) ->
  tbl !! k = None /\ tbl' = <[k := bed]> tbl /\ Bed.patient_id bed = PNull /\
  bind_text bed_no = Ok (Some k) /\ bind_text ward = Ok (Bed.ward bed) /\
  (status = JNull /\ Bed.status bed = Some "Available" \/
   bind_text status = Ok (Bed.status bed)).
Proof.
  unfold insert_bed, mbind, result_bind. intros H.
  destruct (bind_text bed_no) as [[b|]|], (bind_text ward) as [w|];
    simplify_eq/=;
    try (destruct status; simpl in H; repeat case_match; discriminate).
  destruct (tbl !! b) eqn:E.
  { destruct status; simpl in H; repeat case_match; discriminate. }
  destruct status as [|x|z|f|t|l|d]; simpl in H; repeat case_match; simplify_eq;
    simpl; repeat split; auto.
  right. by rewrite H1.
Qed.

(** *** The effect of one request on the table *)

(** [POST /beds] leaves the table as it is, rewrites the status of one
    row, or adds one row without a patient. *)
Lemma create_or_update_bed_cases tbl request_data :
  fst (create_or_update_bed tbl request_data) = tbl \/
  (exists d k bed s,
      request_data = Some (JObj d) /\ tbl !! k = Some bed /\
      bind_text (get_default d "status" (JStr "Available")) = Ok s /\
      fst (create_or_update_bed tbl request_data) =
        <[k := Bed.mk (Bed.ward bed) s
                 (if eq_str (get_default d "status" (JStr "Available")) "Available"
                  then PNull else Bed.patient_id bed)]> tbl) \/
  (exists d k bed,
      request_data = Some (JObj d) /\ tbl !! k = None /\
      Bed.patient_id bed = PNull /\
      (get_default d "status" (JStr "Available") = JNull /\
       Bed.status bed = Some "Available" \/
       bind_text (get_default d "status" (JStr "Available")) = Ok (Bed.status bed)) /\
      fst (create_or_update_bed tbl request_data) = <[k := bed]> tbl).
Proof.
  unfold create_or_update_bed.
  destruct request_data as [data|]; [| by left].
  destruct (negb (truthy data)); [by left |].
  destruct data as [|b|z|f|t|l|d]; try by left.
  destruct (negb (truthy (get d "bed_no")) || negb (truthy (get d "ward")));
    [by left |].
  destruct (query_exact tbl (get d "bed_no") (get d "ward"))
    as [[[k bed]|]|] eqn:Q; [| | by left].
  - apply query_exact_Some in Q as (Hk & _ & _).
    destruct (bind_text (get_default d "status" (JStr "Available")))
      as [s|] eqn:B; [| by left].
    right; left. exists d, k, bed, s. auto.
  - destruct (insert_bed tbl (get d "bed_no") (get d "ward")
                (get_default d "status" (JStr "Available")))
      as [[tbl' [k bed]]|] eqn:I; [| by left].
    apply insert_bed_Ok in I as (Hk & -> & Hp & _ & _ & Hs).
    right; right. exists d, k, bed. auto.
Qed.

(** [POST /assign-bed] leaves the table as it is or marks one existing row
    as occupied. *)
Lemma assign_bed_cases tbl request_data :
  fst (assign_bed tbl request_data) = tbl \/
  (exists k bed p,
      tbl !! k = Some bed /\
      fst (assign_bed tbl request_data) =
        <[k := Bed.mk (Bed.ward bed) (Some "Occupied") p]> tbl).
Proof.
  unfold assign_bed.
  destruct request_data as [data|]; [| by left].
  destruct (negb (truthy data)); [by left |].
  destruct data as [|b|z|f|t|l|d]; try by left.
  match goal with |- context [if ?c then _ else _] => destruct c end; [by left |].
  match goal with |- context [resolve ?t ?b ?w] =>
    destruct (resolve t b w) as [[[k bed]|]|] eqn:R end; [| by left | by left].
  apply resolve_Some in R as [Hk _].
  case_bool_decide; [by left |].
  match goal with |- context [bind_integer ?v] =>
    destruct (bind_integer v) as [p|] end; [| by left].
  right. exists k, bed, p. auto.
Qed.

(** *** Payload fields *)

Lemma truthy_insert k v (d : gmap string json) : truthy (JObj (<[k := v]> d)) = true.
Proof.
  simpl. rewrite bool_decide_eq_false_2; [reflexivity |]. apply insert_non_empty.
Qed.

(** [assign_bed] reads a non-empty dict only through its three fields. *)
Lemma assign_bed_fields tbl (d d' : gmap string json) :
  truthy (JObj d) = true -> truthy (JObj d') = true ->
  py_or (get d "bed_no") (get d "bedNo") = py_or (get d' "bed_no") (get d' "bedNo") ->
  get d "ward" = get d' "ward" ->
  py_or (get d "patient_id") (get d "patientId") =
    py_or (get d' "patient_id") (get d' "patientId") ->
  assign_bed tbl (Some (JObj d)) = assign_bed tbl (Some (JObj d')).
Proof.
  intros Hd Hd' Hb Hw Hp. unfold assign_bed.
  rewrite Hd, Hd', Hb, Hw, Hp. reflexivity.
Qed.

(** A falsy field is a validation error whatever the other fields are. *)
Lemma assign_bed_missing tbl (d : gmap string json) :
  truthy (JObj d) = true ->
  truthy (py_or (get d "bed_no") (get d "bedNo")) = false \/
  truthy (get d "ward") = false \/
  truthy (py_or (get d "patient_id") (get d "patientId")) = false ->
  assign_bed tbl (Some (JObj d)) =
    (tbl, Response 400 (Msg (Literal "bed_no, ward, and patient_id are required"))).
Proof.
  intros Hd H. unfold assign_bed. rewrite Hd. simpl negb at 1. cbv iota.
  destruct H as [H|[H|H]]; rewrite H; simpl; rewrite ?orb_true_r; reflexivity.
Qed.

Lemma py_or_null_r v : truthy (py_or v JNull) = truthy v.
Proof. unfold py_or. by destruct (truthy v) eqn:E. Qed.

Lemma py_or_null_l v : py_or JNull v = v.
Proof. reflexivity. Qed.

Lemma py_or_truthy v w : truthy v = true -> py_or v w = v.
Proof. unfold py_or. by intros ->. Qed.

Lemma truthy_get (d : gmap string json) k :
  truthy (get d k) = true -> truthy (JObj d) = true.
Proof.
  unfold get. intros H. simpl. rewrite bool_decide_eq_false_2; [reflexivity |].
  intros ->. by rewrite lookup_empty in H.
Qed.

Lemma create_or_update_bed_valid tbl (d : gmap string json) :
  truthy (get d "bed_no") = true -> truthy (get d "ward") = true ->
  create_or_update_bed tbl (Some (JObj d)) =
    match query_exact tbl (get d "bed_no") (get d "ward") with
    | Raise e => (tbl, Unhandled e)
    | Ok (Some (k, bed)) =>
        match bind_text (get_default d "status" (JStr "Available")) with
        | Raise e => (tbl, Unhandled e)
        | Ok s =>
            let bed' :=
              Bed.mk (Bed.ward bed) s
                (if eq_str (get_default d "status" (JStr "Available")) "Available"
                 then PNull else Bed.patient_id bed) in
            (<[k := bed']> tbl,
             Response 200 (MsgBed (Literal "Bed status updated") k bed'))
        end
    | Ok None =>
        match insert_bed tbl (get d "bed_no") (get d "ward")
                (get_default d "status" (JStr "Available")) with
        | Raise e => (tbl, Unhandled e)
        | Ok (tbl', (k, bed)) =>
            (tbl', Response 201 (MsgBed (Literal "Bed created") k bed))
        end
    end.
Proof.
  intros Hb Hw. unfold create_or_update_bed.
  rewrite (truthy_get d "ward") by done. by rewrite Hb, Hw.
Qed.

Lemma create_or_update_bed_invalid tbl (d : gmap string json) :
  truthy (get d "bed_no") = false \/ truthy (get d "ward") = false ->
  fst (create_or_update_bed tbl (Some (JObj d))) = tbl.
Proof.
  intros H. unfold create_or_update_bed.
  destruct (negb (truthy (JObj d))); [done |].
  destruct H as [-> | ->]; simpl; by rewrite ?orb_true_r.
Qed.

Lemma assign_bed_valid tbl (d : gmap string json) :
  let bed_no := py_or (get d "bed_no") (get d "bedNo") in
  let ward := get d "ward" in
  let patient_id := py_or (get d "patient_id") (get d "patientId") in
  truthy bed_no = true -> truthy ward = true -> truthy patient_id = true ->
  assign_bed tbl (Some (JObj d)) =
    match resolve tbl bed_no ward with
    | Raise e => (tbl, Unhandled e)
    | Ok None => (tbl, Response 404 (Msg (BedNotFound bed_no ward)))
    | Ok (Some (k, bed)) =>
        if bool_decide (Bed.status bed = Some "Occupied") then
          (tbl, Response 400 (Msg (Literal "Bed already occupied")))
        else
          match bind_integer patient_id with
          | Raise e => (tbl, Unhandled e)
          | Ok p =>
              (<[k := Bed.mk (Bed.ward bed) (Some "Occupied") p]> tbl,
               Response 200 (MsgBed (Literal "Bed assigned") k
                               (Bed.mk (Bed.ward bed) (Some "Occupied") p)))
          end
    end.
Proof.
  intros bed_no ward patient_id Hb Hw Hp. unfold assign_bed.
  rewrite (truthy_get d "ward") by done.
  fold bed_no ward patient_id. by rewrite Hb, Hw, Hp.
Qed.

(** *** Resolution after a row was rewritten *)

Lemma resolve_insert_same_ward tbl bed_no ward k bed bed' :
  resolve tbl bed_no ward = Ok (Some (k, bed)) ->
  Bed.ward bed' = Bed.ward bed ->
  resolve (<[k := bed']> tbl) bed_no ward = Ok (Some (k, bed')).
Proof.
  intros Hr Hw. pose proof (resolve_Some _ _ _ _ _ Hr) as [Hk Bb].
  revert Hr. unfold resolve, query_exact, query_fuzzy. rewrite Bb.
  destruct (bind_text ward) as [w|]; cbn [mbind result_bind]; [| done].
  rewrite Hk, lookup_insert_eq, Hw.
  destruct (column_eq (Bed.ward bed) ward w); [done |].
  destruct ward; try done; destruct w as [w|]; try done;
    destruct (pattern_too_long w); try done;
    destruct (Bed.ward bed) as [stored|]; try done;
    by destruct (contains stored w).
Qed.

Lemma assign_bed_200 tbl (d : gmap string json) m k bed :
  snd (assign_bed tbl (Some (JObj d))) = Response 200 (MsgBed m k bed) ->
  let bed_no := py_or (get d "bed_no") (get d "bedNo") in
  let ward := get d "ward" in
  let patient_id := py_or (get d "patient_id") (get d "patientId") in
  truthy bed_no = true /\ truthy ward = true /\ truthy patient_id = true /\
  exists bed0 p,
    resolve tbl bed_no ward = Ok (Some (k, bed0)) /\
    Bed.status bed0 <> Some "Occupied" /\
    bind_integer patient_id = Ok p /\
    bed = Bed.mk (Bed.ward bed0) (Some "Occupied") p /\
    fst (assign_bed tbl (Some (JObj d))) = <[k := bed]> tbl.
Proof.
  intros H bed_no ward patient_id. revert H. unfold assign_bed.
  destruct (negb (truthy (JObj d))); [done |].
  fold bed_no ward patient_id.
  destruct (truthy bed_no), (truthy ward), (truthy patient_id); try done.
  cbn [negb orb].
  destruct (resolve tbl bed_no ward) as [[[k0 bed0]|]|]; try done.
  case_bool_decide; [done |].
  destruct (bind_integer patient_id) as [p|]; [| done].
  cbn [fst snd]. intros [= <- <- <-]. repeat split. by exists bed0, p.
Qed.

Lemma assign_bed_200_object tbl request_data m k bed :
  snd (assign_bed tbl request_data) = Response 200 (MsgBed m k bed) ->
  exists d, request_data = Some (JObj d).
Proof.
  unfold assign_bed. destruct request_data as [data|]; [| done].
  destruct (negb (truthy data)); [done |].
  destruct data as [|b|z|f|t|l|d]; try done. by exists d.
Qed.

(** *** The read and the write of [POST /assign-bed] *)

Lemma py_equal_true loaded v p :
  py_equal loaded v = Some true -> bind_integer v = Ok p -> p = loaded.
Proof.
  unfold py_equal, bind_integer. intros E B.
  repeat case_match; simplify_eq/=; try done;
    match goal with H : (_ =? _) = true |- _ => apply Z.eqb_eq in H end;
    congruence.
Qed.

(** Without another request in between, the read followed by the write is
    the handler. *)
Lemma assign_bed_read_write tbl request_data :
  assign_bed_finish tbl (assign_bed_check tbl request_data) =
    Some (assign_bed tbl request_data).
Proof.
  unfold assign_bed_check, assign_bed.
  destruct request_data as [data|]; [| done].
  destruct (negb (truthy data)); [done |].
  destruct data as [|b|z|f|t|l|d]; try done.
  match goal with |- context [if ?c then _ else _] => destruct c end; [done |].
  match goal with |- context [resolve ?t ?b ?w] =>
    destruct (resolve t b w) as [[[k bed]|]|] eqn:R end; [| done | done].
  apply resolve_Some in R as [Hk _].
  case_bool_decide as Hs; [done |].
  cbn [assign_bed_finish]. unfold assign_bed_write.
  cbn [pending_key pending_loaded pending_patient].
  destruct (bind_integer _) as [p|e] eqn:B; [| done].
  rewrite Hk. rewrite bool_decide_eq_false_2 by done.
  destruct (py_equal _ _) as [[]|] eqn:E; cbn.
  - by rewrite (py_equal_true _ _ p E B).
  - done.
  - by rewrite bool_decide_eq_true_2.
Qed.

Lemma serial_assign_bed tbl r1 r2 :
  serial tbl r1 r2 =
    Some (fst (assign_bed (fst (assign_bed tbl r1)) r2),
          snd (assign_bed tbl r1),
          snd (assign_bed (fst (assign_bed tbl r1)) r2)).
Proof.
  unfold serial. rewrite assign_bed_read_write.
  destruct (assign_bed tbl r1) as [tbl1 answer1]. cbn.
  rewrite assign_bed_read_write.
  by destruct (assign_bed tbl1 r2) as [tbl2 answer2].
Qed.

(** * The claims *)

(** ** C1: the key of the registry *)

(** The insert that [POST /beds] attempts for a pair it has not seen is
    refused whenever the bed number alone is already in the table. *)
Lemma create_or_update_bed_number_taken tbl (d : gmap string json) b w bed :
  d !! "bed_no" = Some (JStr b) -> d !! "ward" = Some (JStr w) ->
  b <> EmptyString -> w <> EmptyString ->
  (forall s, d !! "status" = Some s -> exists t, bind_text s = Ok t) ->
  tbl !! b = Some bed -> Bed.ward bed <> Some w ->
  create_or_update_bed tbl (Some (JObj d)) = (tbl, Unhandled IntegrityError).
Proof.
  intros Hb Hw Hbne Hwne Hs Hk Hward.
  rewrite create_or_update_bed_valid;
    unfold get; rewrite ?Hb, ?Hw; simpl; [| by destruct b | by destruct w].
  unfold query_exact, insert_bed. simpl. rewrite Hk.
  rewrite bool_decide_eq_false_2 by done. unfold get_default.
  destruct (d !! "status") as [s|] eqn:E; simpl; [| done].
  destruct (Hs s eq_refl) as [t Ht].
  destruct s; simpl in *; try done; by rewrite Ht.
Qed.

(** C1 (evaluation at the failing input).  With bed "101" of "Ward A" in
    the registry, [POST /beds] for bed "101" of "Ward B" finds no row for
    the pair, tries to insert one, and the insert violates the primary key
    [bed_no]: the handler ends in an unhandled [IntegrityError] and no
    record for ("101", "Ward B") exists afterwards. *)
Theorem create_or_update_bed_same_number_other_ward :
  create_or_update_bed
    {["101" := Bed.mk (Some "Ward A") (Some "Available") PNull]}
    (Some (JObj (<["bed_no" := JStr "101"]> {["ward" := JStr "Ward B"]})))
  = ({["101" := Bed.mk (Some "Ward A") (Some "Available") PNull]},
     Unhandled IntegrityError).
Proof. vm_compute. reflexivity. Qed.

(** ** C2: key aliases *)

(** C2 (counterexample).  [POST /beds] does not know the camelCase key:
    the payload with [bedNo] is rejected where the one with [bed_no]
    creates the bed.  And in [POST /assign-bed] a snake_case value that is
    present but empty gives way to the camelCase one. *)
Lemma upsert_ignores_camel_case :
  create_or_update_bed ∅
    (Some (JObj (<["bedNo" := JStr "101"]> {["ward" := JStr "Ward A"]})))
  = (∅, Response 400 (Msg (Literal "bed_no and ward are required")))
  /\
  create_or_update_bed ∅
    (Some (JObj (<["bed_no" := JStr "101"]> {["ward" := JStr "Ward A"]})))
  = ({["101" := Bed.mk (Some "Ward A") (Some "Available") PNull]},
     Response 201 (MsgBed (Literal "Bed created") "101"
                     (Bed.mk (Some "Ward A") (Some "Available") PNull)))
  /\
  assign_bed {["101" := Bed.mk (Some "Ward A") (Some "Available") PNull]}
    (Some (JObj (<["bed_no" := JStr ""]> (<["bedNo" := JStr "101"]>
       (<["ward" := JStr "Ward A"]> {["patient_id" := JInt 7]})))))
  = ({["101" := Bed.mk (Some "Ward A") (Some "Occupied") (PInt 7)]},
     Response 200 (MsgBed (Literal "Bed assigned") "101"
                     (Bed.mk (Some "Ward A") (Some "Occupied") (PInt 7)))).
Proof. vm_compute. repeat split. Qed.

Lemma truthy_lookup (d : gmap string json) k v :
  d !! k = Some v -> truthy (JObj d) = true.
Proof.
  intros H. simpl. rewrite bool_decide_eq_false_2; [reflexivity |].
  intros ->. by rewrite lookup_empty in H.
Qed.

Lemma py_or_falsy s v : truthy s = false -> py_or s v = v.
Proof. unfold py_or. by intros ->. Qed.

(** C2 (amended).  In [POST /assign-bed] the bed number and the patient id
    may come under the camelCase key instead of the snake_case key, with
    the same result; a snake_case value that is truthy is the one used,
    whatever the camelCase key holds; and a snake_case value that is
    present but falsy gives way to the camelCase one.  [POST /beds] looks
    at no key but ["bed_no"], ["ward"] and ["status"]: a bed number under
    ["bedNo"] alone is answered 400. *)
Theorem assign_bed_key_aliases tbl (d : gmap string json) (v : json) :
  (d !! "bed_no" = None -> d !! "bedNo" = None ->
   assign_bed tbl (Some (JObj (<["bedNo" := v]> d))) =
   assign_bed tbl (Some (JObj (<["bed_no" := v]> d))))
  /\
  (d !! "patient_id" = None -> d !! "patientId" = None ->
   assign_bed tbl (Some (JObj (<["patientId" := v]> d))) =
   assign_bed tbl (Some (JObj (<["patient_id" := v]> d))))
  /\
  (truthy v = true ->
   assign_bed tbl (Some (JObj (<["bed_no" := v]> d))) =
   assign_bed tbl (Some (JObj (<["bed_no" := v]> (delete "bedNo" d)))))
  /\
  (truthy v = true ->
   assign_bed tbl (Some (JObj (<["patient_id" := v]> d))) =
   assign_bed tbl (Some (JObj (<["patient_id" := v]> (delete "patientId" d)))))
  /\
  (forall s, truthy s = false -> d !! "bedNo" = Some v ->
   assign_bed tbl (Some (JObj (<["bed_no" := s]> d))) =
   assign_bed tbl (Some (JObj (delete "bed_no" d))))
  /\
  (forall s, truthy s = false -> d !! "patientId" = Some v ->
   assign_bed tbl (Some (JObj (<["patient_id" := s]> d))) =
   assign_bed tbl (Some (JObj (delete "patient_id" d))))
  /\
  (forall k, k <> "bed_no" -> k <> "ward" -> k <> "status" -> d <> ∅ ->
   create_or_update_bed tbl (Some (JObj (<[k := v]> d))) =
   create_or_update_bed tbl (Some (JObj d)))
  /\
  (d !! "bed_no" = None ->
   create_or_update_bed tbl (Some (JObj (<["bedNo" := v]> d))) =
   (tbl, Response 400 (Msg (Literal "bed_no and ward are required")))).
Proof.
  split; [| split; [| split; [| split; [| split; [| split; [| split]]]]]].
  - intros H1 H2. destruct (truthy v) eqn:Hv.
    + apply assign_bed_fields; try apply truthy_insert;
        unfold get; simplify_map_eq; rewrite ?H1, ?H2; simpl;
        rewrite ?(py_or_truthy v) by done; done.
    + rewrite !assign_bed_missing; try apply truthy_insert; try done;
        left; unfold get; simplify_map_eq; rewrite ?H1, ?H2; simpl;
        rewrite ?py_or_null_r; done.
  - intros H1 H2. destruct (truthy v) eqn:Hv.
    + apply assign_bed_fields; try apply truthy_insert;
        unfold get; simplify_map_eq; rewrite ?H1, ?H2; simpl;
        rewrite ?(py_or_truthy v) by done; done.
    + rewrite !assign_bed_missing; try apply truthy_insert; try done;
        right; right; unfold get; simplify_map_eq; rewrite ?H1, ?H2; simpl;
        rewrite ?py_or_null_r; done.
  - intros Hv. apply assign_bed_fields; try apply truthy_insert;
      unfold get; simplify_map_eq; rewrite ?(py_or_truthy v) by done; done.
  - intros Hv. apply assign_bed_fields; try apply truthy_insert;
      unfold get; simplify_map_eq; rewrite ?(py_or_truthy v) by done; done.
  - intros s Hs Hc. apply assign_bed_fields; try apply truthy_insert.
    + apply (truthy_lookup _ "bedNo" v). by rewrite lookup_delete_ne.
    + unfold get. rewrite lookup_insert_eq, lookup_delete_eq.
      rewrite lookup_insert_ne, lookup_delete_ne by done. simpl.
      by rewrite py_or_falsy.
    + unfold get. by rewrite lookup_insert_ne, lookup_delete_ne.
    + unfold get. by rewrite !lookup_insert_ne, !lookup_delete_ne.
  - intros s Hs Hc. apply assign_bed_fields; try apply truthy_insert.
    + apply (truthy_lookup _ "patientId" v). by rewrite lookup_delete_ne.
    + unfold get. by rewrite !lookup_insert_ne, !lookup_delete_ne.
    + unfold get. by rewrite lookup_insert_ne, lookup_delete_ne.
    + unfold get. rewrite lookup_insert_eq, lookup_delete_eq.
      rewrite lookup_insert_ne, lookup_delete_ne by done. simpl.
      by rewrite py_or_falsy.
  - intros k K1 K2 K3 Hd. unfold create_or_update_bed.
    rewrite truthy_insert. simpl truthy.
    rewrite (bool_decide_eq_false_2 (d = ∅)) by done.
    unfold get, get_default. by rewrite !lookup_insert_ne.
  - intros H1. unfold create_or_update_bed. rewrite truthy_insert.
    unfold get. rewrite lookup_insert_ne, H1 by done. done.
Qed.

Lemma assign_bed_key_aliases_witness :
  let tbl : table := {["101" := Bed.mk (Some "Ward A") (Some "Available") PNull]} in
  let d : gmap string json := <["ward" := JStr "Ward A"]> {["patient_id" := JInt 7]} in
  let d' : gmap string json :=
    <["ward" := JStr "Ward A"]> (<["patient_id" := JInt 7]> {["bedNo" := JStr "102"]}) in
  let d'' : gmap string json :=
    <["bed_no" := JStr "101"]> (<["ward" := JStr "Ward A"]> {["patientId" := JInt 7]}) in
  assign_bed tbl (Some (JObj (<["bedNo" := JStr "101"]> d))) =
  assign_bed tbl (Some (JObj (<["bed_no" := JStr "101"]> d)))
  /\
  assign_bed tbl (Some (JObj (<["bed_no" := JStr "101"]> d'))) =
  assign_bed tbl (Some (JObj (<["bed_no" := JStr "101"]> (delete "bedNo" d'))))
  /\
  assign_bed tbl (Some (JObj (<["patient_id" := JInt 0]> d''))) =
  assign_bed tbl (Some (JObj (delete "patient_id" d'')))
  /\
  create_or_update_bed tbl (Some (JObj (<["bedNo" := JStr "102"]> {["ward" := JStr "Ward A"]}))) =
  (tbl, Response 400 (Msg (Literal "bed_no and ward are required"))).
Proof.
  intros tbl d d' d''. split; [| split; [| split]].
  - apply (proj1 (assign_bed_key_aliases tbl d (JStr "101"))); reflexivity.
  - apply (proj1 (proj2 (proj2 (assign_bed_key_aliases tbl d' (JStr "101"))))).
    reflexivity.
  - apply (proj1 (proj2 (proj2 (proj2 (proj2 (proj2
             (assign_bed_key_aliases tbl d'' (JInt 7))))))) (JInt 0));
      reflexivity.
  - apply (proj2 (proj2 (proj2 (proj2 (proj2 (proj2 (proj2
             (assign_bed_key_aliases tbl {["ward" := JStr "Ward A"]} (JStr "102"))))))))).
    reflexivity.
Defined.

(** ** C3: an occupied bed is not reassigned *)

(** C3.  A request to [POST /assign-bed] that passes validation and whose
    bed resolves to a row with status "Occupied" is answered with 400 and
    "Bed already occupied"; the table, and with it the status and the
    occupant of that row, are as before. *)
Theorem assign_bed_occupied tbl (d : gmap string json) k bed :
  let bed_no := py_or (get d "bed_no") (get d "bedNo") in
  let ward := get d "ward" in
  let patient_id := py_or (get d "patient_id") (get d "patientId") in
  truthy bed_no = true -> truthy ward = true -> truthy patient_id = true ->
  resolve tbl bed_no ward = Ok (Some (k, bed)) ->
  Bed.status bed = Some "Occupied" ->
  assign_bed tbl (Some (JObj d)) =
    (tbl, Response 400 (Msg (Literal "Bed already occupied"))) /\
  fst (assign_bed tbl (Some (JObj d))) !! k = Some bed.
Proof.
  intros bed_no ward patient_id Hb Hw Hp Hr Hs.
  assert (assign_bed tbl (Some (JObj d)) =
            (tbl, Response 400 (Msg (Literal "Bed already occupied")))) as E.
  { unfold assign_bed. rewrite (truthy_get d "ward") by done.
    fold bed_no ward patient_id. rewrite Hb, Hw, Hp, Hr. simpl.
    by rewrite bool_decide_eq_true_2. }
  split; [exact E |]. rewrite E. simpl. by apply resolve_Some in Hr as [? _].
Qed.

Lemma assign_bed_occupied_witness :
  let tbl : table := {["101" := Bed.mk (Some "Ward A") (Some "Occupied") (PInt 7)]} in
  assign_bed tbl (assign_payload (JStr "101") (JStr "A") (JInt 8)) =
    (tbl, Response 400 (Msg (Literal "Bed already occupied"))) /\
  fst (assign_bed tbl (assign_payload (JStr "101") (JStr "A") (JInt 8))) !! "101" =
    Some (Bed.mk (Some "Ward A") (Some "Occupied") (PInt 7)).
Proof.
  intros tbl.
  apply (assign_bed_occupied tbl
           (<["bed_no" := JStr "101"]> (<["ward" := JStr "A"]> {["patient_id" := JInt 8]}))
           "101" (Bed.mk (Some "Ward A") (Some "Occupied") (PInt 7)));
    reflexivity.
Defined.

(** ** C8: a successful assignment *)




(** ** C5: how the bed is resolved *)

Lemma string_length_snoc s c :
  String.length (s +:+ String c EmptyString) = S (String.length s).
Proof. induction s as [|a s IH]; [done |]. simpl. by rewrite IH. Qed.

Lemma pattern_too_long_iff w :
  pattern_too_long w = false <-> (N.of_nat (String.length w) <= 49998)%N.
Proof.
  unfold pattern_too_long.
  change ("%" +:+ w +:+ "%") with (String "%" (w +:+ "%")).
  cbn [String.length]. rewrite string_length_snoc.
  rewrite N.ltb_ge. lia.
Qed.




(** The example of the specification: ward "A" finds the bed stored under
    "Ward A", and a ward that matches nothing is answered with 404. *)
Example fuzzy_match_ward_A :
  let tbl : table := {["101" := Bed.mk (Some "Ward A") (Some "Available") PNull]} in
  assign_bed tbl (assign_payload (JStr "101") (JStr "A") (JInt 7)) =
    ({["101" := Bed.mk (Some "Ward A") (Some "Occupied") (PInt 7)]},
     Response 200 (MsgBed (Literal "Bed assigned") "101"
                     (Bed.mk (Some "Ward A") (Some "Occupied") (PInt 7)))) /\
  assign_bed tbl (assign_payload (JStr "101") (JStr "B") (JInt 7)) =
    (tbl, Response 404 (Msg (BedNotFound (JStr "101") (JStr "B")))).
Proof. vm_compute. split; reflexivity. Qed.

(** ** Invariants of the reachable registries *)

Lemma run_snoc tbl rs r : run tbl (rs ++ [r]) = fst (handle (run tbl rs) r).
Proof. unfold run. by rewrite foldl_app. Qed.

(** A property of tables that holds of the empty table and that every
    request among [Q] preserves holds after any sequence of such requests. *)
Lemma run_invariant (P : table -> Prop) (Q : request -> Prop) :
  P ∅ ->
  (forall tbl r, Q r -> P tbl -> P (fst (handle tbl r))) ->
  forall rs, Forall Q rs -> P (run ∅ rs).
Proof.
  intros Hempty Hstep rs. induction rs as [|r rs IH] using rev_ind; intros HQ.
  - exact Hempty.
  - apply Forall_app in HQ as [Hrs Hr]. rewrite run_snoc.
    apply Hstep; [by inversion Hr | by apply IH].
Qed.

Lemma reachable_invariant (P : table -> Prop) :
  P ∅ ->
  (forall tbl r, P tbl -> P (fst (handle tbl r))) ->
  forall tbl, reachable tbl -> P tbl.
Proof.
  intros Hempty Hstep tbl [rs ->].
  apply (run_invariant P (fun _ => True)); auto.
  by apply Forall_forall.
Qed.

(** ** C4: the statuses stored *)

(** C4 (counterexample).  One [POST /beds] with status "Maintenance"
    takes the empty registry to one whose bed "101" has that status. *)
Lemma upsert_stores_any_status :
  let tbl := run ∅ [POST_beds (upsert_payload (JStr "101") (JStr "Ward A")
                                 (JStr "Maintenance"))] in
  reachable tbl /\
  tbl !! "101" = Some (Bed.mk (Some "Ward A") (Some "Maintenance") PNull).
Proof.
  split.
  - by eexists.
  - vm_compute. reflexivity.
Qed.

(** C4 (amended).  After any sequence of requests, starting from the empty
    registry, in which every [POST /beds] payload leaves [status] out or
    gives "Available" or "Occupied", every record has status "Available"
    or "Occupied"; [POST /assign-bed] and [GET /beds] are unrestricted. *)
Theorem status_domain rs k bed :
  Forall status_checked rs ->
  run ∅ rs !! k = Some bed ->
  Bed.status bed = Some "Available" \/ Bed.status bed = Some "Occupied".
Proof.
  intros HQ. revert k bed.
  apply (run_invariant
           (fun tbl => forall k bed, tbl !! k = Some bed ->
              Bed.status bed = Some "Available" \/ Bed.status bed = Some "Occupied")
           status_checked); [| | exact HQ].
  - intros k bed H. by rewrite lookup_empty in H.
  - intros tbl r Hr IH k bed. destruct r as [|request_data|request_data]; simpl.
    + apply IH.
    + destruct (create_or_update_bed_cases tbl request_data)
        as [-> | [(d & k' & bed0 & s & -> & Hk & Hs & ->)
                 | (d & k' & bed0 & -> & Hk & Hp & Hs & ->)]].
      * apply IH.
      * simpl in Hr. rewrite lookup_insert. case_decide; [| apply IH].
        intros [= <-]. simpl. unfold get_default in Hs.
        destruct Hr as [Hr | [Hr | Hr]]; rewrite Hr in Hs; simpl in Hs;
          simplify_eq; auto.
      * simpl in Hr. rewrite lookup_insert. case_decide; [| apply IH].
        intros [= <-]. unfold get_default in Hs.
        destruct Hr as [Hr | [Hr | Hr]]; rewrite Hr in Hs; simpl in Hs;
          destruct Hs as [[? ?] | Hs]; simplify_eq; auto.
    + destruct (assign_bed_cases tbl request_data)
        as [-> | (k' & bed0 & p & Hk & ->)].
      * apply IH.
      * rewrite lookup_insert. case_decide; [| apply IH].
        intros [= <-]. auto.
Qed.

Lemma status_domain_witness :
  Bed.status (Bed.mk (Some "Ward A") (Some "Occupied") (PInt 7)) = Some "Available" \/
  Bed.status (Bed.mk (Some "Ward A") (Some "Occupied") (PInt 7)) = Some "Occupied".
Proof.
  apply (status_domain
           [POST_beds (upsert_payload (JStr "101") (JStr "Ward A") (JStr "Available"));
            POST_assign_bed (assign_payload (JStr "101") (JStr "A") (JInt 7));
            GET_beds]
           "101").
  - apply Forall_cons_2; [| apply Forall_cons_2; [| apply Forall_cons_2; [| apply Forall_nil_2]]].
    + right; left. reflexivity.
    + exact I.
    + exact I.
  - vm_compute. reflexivity.
Defined.

(** ** C6: an available bed has no patient *)

(** C6.  [POST /beds] with status "Available" (given or by default) for a
    bed that exists leaves that bed with status "Available" and without a
    patient, whoever occupied it; and in every reachable registry a bed
    with status "Available" has no patient. *)
Theorem available_has_no_patient :
  (forall tbl (d : gmap string json) k bed,
     truthy (get d "bed_no") = true -> truthy (get d "ward") = true ->
     query_exact tbl (get d "bed_no") (get d "ward") = Ok (Some (k, bed)) ->
     get_default d "status" (JStr "Available") = JStr "Available" ->
     fst (create_or_update_bed tbl (Some (JObj d))) !! k =
       Some (Bed.mk (Bed.ward bed) (Some "Available") PNull))
  /\
  (forall tbl k bed,
     reachable tbl -> tbl !! k = Some bed ->
     Bed.status bed = Some "Available" -> Bed.patient_id bed = PNull).
Proof.
  split.
  - intros tbl d k bed Hb Hw Hq Hs. unfold create_or_update_bed.
    rewrite (truthy_get d "ward") by done. rewrite Hb, Hw, Hq, Hs. simpl.
    by rewrite lookup_insert_eq.
  - intros tbl k bed Hreach. revert k bed.
    apply (reachable_invariant
             (fun tbl => forall k bed, tbl !! k = Some bed ->
                Bed.status bed = Some "Available" -> Bed.patient_id bed = PNull));
      [| | exact Hreach]; clear tbl Hreach.
    + intros k bed H. by rewrite lookup_empty in H.
    + intros tbl r IH k bed. destruct r as [|request_data|request_data]; simpl.
      * apply IH.
      * destruct (create_or_update_bed_cases tbl request_data)
          as [-> | [(d & k' & bed0 & s & -> & Hk & Hs & ->)
                   | (d & k' & bed0 & -> & Hk & Hp & Hs & ->)]].
        -- apply IH.
        -- rewrite lookup_insert. case_decide; [| apply IH].
           intros [= <-]. simpl. intros ->.
           apply bind_text_Available in Hs. by rewrite Hs.
        -- rewrite lookup_insert. case_decide; [| apply IH].
           by intros [= <-].
      * destruct (assign_bed_cases tbl request_data)
          as [-> | (k' & bed0 & p & Hk & ->)].
        -- apply IH.
        -- rewrite lookup_insert. case_decide; [| apply IH].
           intros [= <-]. discriminate.
Qed.

Lemma available_has_no_patient_witness :
  let tbl : table := {["101" := Bed.mk (Some "Ward A") (Some "Occupied") (PInt 7)]} in
  let d : gmap string json :=
    <["bed_no" := JStr "101"]> (<["ward" := JStr "Ward A"]> {["status" := JStr "Available"]}) in
  fst (create_or_update_bed tbl (Some (JObj d))) !! "101" =
    Some (Bed.mk (Some "Ward A") (Some "Available") PNull)
  /\
  Bed.patient_id (Bed.mk (Some "Ward A") (Some "Available") PNull) = PNull.
Proof.
  intros tbl d. split.
  - apply (proj1 available_has_no_patient tbl d "101"
             (Bed.mk (Some "Ward A") (Some "Occupied") (PInt 7)));
      reflexivity.
  - apply (proj2 available_has_no_patient
             (run ∅ [POST_beds (Some (JObj (<["bed_no" := JStr "101"]>
                                              {["ward" := JStr "Ward A"]})))])
             "101").
    + by eexists.
    + vm_compute. reflexivity.
    + reflexivity.
Defined.

(** ** C7: vacating twice *)

Lemma query_exact_column tbl bed_no ward k bed :
  query_exact tbl bed_no ward = Ok (Some (k, bed)) ->
  exists w, bind_text ward = Ok w /\ column_eq (Bed.ward bed) ward w = true.
Proof.
  unfold query_exact, mbind, result_bind. intros H.
  destruct (bind_text bed_no) as [[b|]|], (bind_text ward) as [w|];
    simplify_eq/=.
  destruct (tbl !! b) as [bed0|]; simplify_eq/=.
  destruct (column_eq (Bed.ward bed0) ward w) eqn:C; simplify_eq/=.
  by exists w.
Qed.

Lemma query_exact_insert tbl bed_no ward k bed w :
  bind_text bed_no = Ok (Some k) -> bind_text ward = Ok w ->
  query_exact (<[k := bed]> tbl) bed_no ward =
    Ok (if column_eq (Bed.ward bed) ward w then Some (k, bed) else None).
Proof.
  intros Hb Hw. unfold query_exact. rewrite Hb, Hw. simpl.
  by rewrite lookup_insert_eq.
Qed.

(** Vacating through [POST /beds] a second time changes nothing, for any
    payload whose status is "Available". *)
Lemma vacate_twice tbl (d : gmap string json) :
  get_default d "status" (JStr "Available") = JStr "Available" ->
  fst (create_or_update_bed (fst (create_or_update_bed tbl (Some (JObj d))))
         (Some (JObj d)))
  = fst (create_or_update_bed tbl (Some (JObj d))).
Proof.
  intros Hs.
  destruct (truthy (get d "bed_no")) eqn:Hb; [| by rewrite !create_or_update_bed_invalid by auto].
  destruct (truthy (get d "ward")) eqn:Hw; [| by rewrite !create_or_update_bed_invalid by auto].
  destruct (create_or_update_bed tbl (Some (JObj d))) as [tbl1 out] eqn:E.
  cbn [fst]. rewrite create_or_update_bed_valid in E by done.
  rewrite create_or_update_bed_valid by done. rewrite Hs in *.
  destruct (query_exact tbl (get d "bed_no") (get d "ward"))
    as [[[k bed]|]|] eqn:Q.
  - pose proof (query_exact_column _ _ _ _ _ Q) as (w & Bw' & Hc).
    apply query_exact_Some in Q as (Hk & Bb & Bw).
    assert (w = Bed.ward bed) as -> by congruence.
    simpl in E. simplify_eq.
    rewrite (query_exact_insert tbl _ _ k
               (Bed.mk (Bed.ward bed) (Some "Available") PNull) (Bed.ward bed))
      by done.
    cbn [Bed.ward]. rewrite Hc. simpl. by rewrite insert_insert_eq.
  - destruct (insert_bed tbl (get d "bed_no") (get d "ward") (JStr "Available"))
      as [[tbl' [k bed]]|] eqn:I; simplify_eq.
    + pose proof I as I'.
      apply insert_bed_Ok in I as (Hk & -> & Hp & Bb & Bw & Hst).
      destruct Hst as [[? _] | Hst]; [discriminate |]. simpl in Hst.
      rewrite (query_exact_insert tbl _ _ k bed (Bed.ward bed)) by done.
      destruct (column_eq (Bed.ward bed) (get d "ward") (Bed.ward bed)).
      * simpl. rewrite insert_insert_eq.
        destruct bed as [wd st pid]; simpl in *. by simplify_eq.
      * unfold insert_bed. rewrite Bb, Bw. cbn [mbind result_bind bind_text].
        by rewrite lookup_insert_eq.
    + by rewrite Q, I.
  - simplify_eq. by rewrite Q.
Qed.

(** C7.  For every bed number [b] and ward [w], two requests
    [upsert(b, w, "Available")] in a row leave the registry, and so the
    answer of [GET /beds], exactly as one such request leaves them. *)
Theorem upsert_available_idempotent tbl (b w : json) :
  let r := POST_beds (upsert_payload b w (JStr "Available")) in
  run tbl [r; r] = run tbl [r] /\
  handle (run tbl [r; r]) GET_beds = handle (run tbl [r]) GET_beds.
Proof.
  intros r.
  assert (run tbl [r; r] = run tbl [r]) as E.
  { unfold run, r, upsert_payload. simpl. apply vacate_twice.
    unfold get_default. by simplify_map_eq. }
  split; [exact E | by rewrite E].
Qed.

(** ** C10: [POST /beds] writes no patient *)

(** C10.  After [POST /beds], a record that did not exist before has no
    patient, and a record that existed has either no patient or the
    patient it had; with a status other than "Available" every existing
    record keeps its patient as it was; [GET /beds] changes nothing.  So
    a patient reference can only come from [POST /assign-bed]. *)
Theorem upsert_never_sets_patient :
  (forall tbl request_data k bed',
     fst (create_or_update_bed tbl request_data) !! k = Some bed' ->
     match tbl !! k with
     | None => Bed.patient_id bed' = PNull
     | Some bed =>
         Bed.patient_id bed' = PNull \/ Bed.patient_id bed' = Bed.patient_id bed
     end)
  /\
  (forall tbl (d : gmap string json) k bed bed',
     eq_str (get_default d "status" (JStr "Available")) "Available" = false ->
     tbl !! k = Some bed ->
     fst (create_or_update_bed tbl (Some (JObj d))) !! k = Some bed' ->
     Bed.patient_id bed' = Bed.patient_id bed)
  /\
  (forall tbl, fst (get_beds tbl) = tbl).
Proof.
  split; [| split; [| done]].
  - intros tbl request_data k bed'.
    destruct (create_or_update_bed_cases tbl request_data)
      as [-> | [(d & k' & bed0 & s & -> & Hk & Hs & ->)
               | (d & k' & bed0 & -> & Hk & Hp & Hs & ->)]].
    + intros ->. by right.
    + rewrite lookup_insert. case_decide as E.
      * subst k'. intros [= <-]. rewrite Hk. simpl.
        destruct (eq_str _ _); auto.
      * intros ->. by right.
    + rewrite lookup_insert. case_decide as E.
      * subst k'. intros [= <-]. by rewrite Hk.
      * intros ->. by right.
  - intros tbl d k bed bed' Hne Hk.
    destruct (create_or_update_bed_cases tbl (Some (JObj d)))
      as [-> | [(d0 & k' & bed0 & s & [= <-] & Hk' & Hs & ->)
               | (d0 & k' & bed0 & [= <-] & Hk' & Hp & Hs & ->)]].
    + rewrite Hk. by intros [= <-].
    + rewrite lookup_insert. case_decide as E.
      * subst k'. intros [= <-]. simpl. rewrite Hne. congruence.
      * rewrite Hk. by intros [= <-].
    + rewrite lookup_insert. case_decide as E.
      * subst k'. congruence.
      * rewrite Hk. by intros [= <-].
Qed.

Lemma upsert_never_sets_patient_witness :
  let tbl : table := {["101" := Bed.mk (Some "Ward A") (Some "Available") (PInt 7)]} in
  let d : gmap string json :=
    <["bed_no" := JStr "101"]> (<["ward" := JStr "Ward A"]> {["status" := JStr "Occupied"]}) in
  Bed.patient_id (Bed.mk (Some "Ward A") (Some "Occupied") (PInt 7)) = PInt 7
  /\
  Bed.patient_id (Bed.mk (Some "Ward B") (Some "Occupied") PNull) = PNull.
Proof.
  intros tbl d. split.
  - apply (proj1 (proj2 upsert_never_sets_patient) tbl d "101"
             (Bed.mk (Some "Ward A") (Some "Available") (PInt 7))
             (Bed.mk (Some "Ward A") (Some "Occupied") (PInt 7)));
      reflexivity.
  - apply (proj1 upsert_never_sets_patient tbl
             (upsert_payload (JStr "102") (JStr "Ward B") (JStr "Occupied"))
             "102" (Bed.mk (Some "Ward B") (Some "Occupied") PNull)).
    reflexivity.
Defined.

(** ** C9: two requests for one bed *)

(** C9 (counterexample).  Two requests for the free bed "101", for the
    patients 7 and 8: when both read the table before either writes, both
    pass the test of line 269, both are answered 200 "Bed assigned", and
    the bed ends with patient 8; the assignment to patient 7 is lost. *)
Lemma interleaved_assignments_both_succeed :
  let tbl : table := {["101" := Bed.mk (Some "Ward A") (Some "Available") PNull]} in
  interleaved tbl
    (assign_payload (JStr "101") (JStr "Ward A") (JInt 7))
    (assign_payload (JStr "101") (JStr "Ward A") (JInt 8)) =
  Some ({["101" := Bed.mk (Some "Ward A") (Some "Occupied") (PInt 8)]},
        Response 200 (MsgBed (Literal "Bed assigned") "101"
                        (Bed.mk (Some "Ward A") (Some "Occupied") (PInt 7))),
        Response 200 (MsgBed (Literal "Bed assigned") "101"
                        (Bed.mk (Some "Ward A") (Some "Occupied") (PInt 8)))).
Proof. vm_compute. reflexivity. Qed.

(** C9 (amended).  Two requests to [POST /assign-bed] served one after the
    other, the second reading the table only after the first has written
    it, are answered as the handler answers each of them in turn.  Then at
    most one of two requests for the same bed succeeds: once the first is
    answered 200 for bed [k], a second request that passes validation and
    resolves to bed [k] is answered 400 "Bed already occupied" and the
    table stays as the first request left it; and two requests that are
    both answered 200 are for different beds. *)
Theorem serial_assignments_conflict tbl r1 :
  (forall r2,
     serial tbl r1 r2 =
       Some (fst (assign_bed (fst (assign_bed tbl r1)) r2),
             snd (assign_bed tbl r1),
             snd (assign_bed (fst (assign_bed tbl r1)) r2)))
  /\
  (forall (d : gmap string json) m k bed bed',
     let bed_no := py_or (get d "bed_no") (get d "bedNo") in
     let ward := get d "ward" in
     let patient_id := py_or (get d "patient_id") (get d "patientId") in
     snd (assign_bed tbl r1) = Response 200 (MsgBed m k bed) ->
     truthy bed_no = true -> truthy ward = true -> truthy patient_id = true ->
     resolve (<[k := bed]> tbl) bed_no ward = Ok (Some (k, bed')) ->
     serial tbl r1 (Some (JObj d)) =
       Some (<[k := bed]> tbl,
             Response 200 (MsgBed m k bed),
             Response 400 (Msg (Literal "Bed already occupied"))))
  /\
  (forall r2 tbl' m k bed m' k' bed',
     serial tbl r1 r2 =
       Some (tbl', Response 200 (MsgBed m k bed), Response 200 (MsgBed m' k' bed')) ->
     k <> k').
Proof.
  split; [apply serial_assign_bed | split].
  - intros d m k bed bed' bed_no ward patient_id H Hb Hw Hp Hr.
    rewrite serial_assign_bed.
    destruct (assign_bed_200_object _ _ _ _ _ H) as [d1 ->].
    pose proof H as H'.
    apply assign_bed_200 in H' as (_ & _ & _ & bed0 & p & _ & _ & _ & Ebed & ->).
    rewrite H. rewrite assign_bed_valid by done. fold bed_no ward.
    rewrite Hr. apply resolve_Some in Hr as [Hk _].
    rewrite lookup_insert_eq in Hk. injection Hk as <-.
    rewrite bool_decide_eq_true_2; [done |]. by rewrite Ebed.
  - intros r2 tbl' m k bed m' k' bed'. rewrite serial_assign_bed.
    intros [= _ H1 H2] <-.
    destruct (assign_bed_200_object _ _ _ _ _ H1) as [d1 ->].
    destruct (assign_bed_200_object _ _ _ _ _ H2) as [d2 ->].
    apply assign_bed_200 in H1 as (_ & _ & _ & bed0 & p & _ & _ & _ & Ebed & E1).
    rewrite E1 in H2.
    apply assign_bed_200 in H2 as (_ & _ & _ & bed1 & p' & Hr & Hs & _).
    apply resolve_Some in Hr as [Hk _].
    rewrite lookup_insert_eq in Hk. injection Hk as <-.
    apply Hs. by rewrite Ebed.
Qed.

Lemma serial_assignments_conflict_witness :
  let tbl : table := {["101" := Bed.mk (Some "Ward A") (Some "Available") PNull]} in
  let taken := Bed.mk (Some "Ward A") (Some "Occupied") (PInt 7) in
  serial tbl
    (assign_payload (JStr "101") (JStr "Ward A") (JInt 7))
    (assign_payload (JStr "101") (JStr "A") (JInt 8)) =
  Some (<["101" := taken]> tbl,
        Response 200 (MsgBed (Literal "Bed assigned") "101" taken),
        Response 400 (Msg (Literal "Bed already occupied"))).
Proof.
  intros tbl taken.
  apply (proj1 (proj2 (serial_assignments_conflict tbl
            (assign_payload (JStr "101") (JStr "Ward A") (JInt 7))))
           (<["bed_no" := JStr "101"]> (<["ward" := JStr "A"]> {["patient_id" := JInt 8]}))
           (Literal "Bed assigned") "101" taken taken);
    reflexivity.
Defined.

(** * Further properties of the bed handlers *)

Lemma handle_served tbl r : served tbl (handle tbl r).
Proof.
  destruct r as [|request_data|request_data]; simpl.
  - apply served_read.
  - unfold create_or_update_bed.
    destruct request_data as [data|]; [| by apply served_refused; auto].
    destruct (negb (truthy data)); [by apply served_refused; auto |].
    destruct data as [|b|z|f|t|l|d]; try apply served_raised.
    destruct (negb (truthy (get d "bed_no")) || negb (truthy (get d "ward")));
      [by apply served_refused; auto |].
    destruct (query_exact tbl (get d "bed_no") (get d "ward"))
      as [[[k bed]|]|] eqn:Q; [| | apply served_raised].
    + apply query_exact_Some in Q as (Hk & _ & _).
      destruct (bind_text (get_default d "status" (JStr "Available")));
        [by eapply served_updated | apply served_raised].
    + destruct (insert_bed tbl (get d "bed_no") (get d "ward")
                  (get_default d "status" (JStr "Available")))
        as [[tbl' [k bed]]|] eqn:I; [| apply served_raised].
      apply insert_bed_Ok in I as (Hk & -> & _).
      by apply served_created.
  - unfold assign_bed.
    destruct request_data as [data|]; [| by apply served_refused; auto].
    destruct (negb (truthy data)); [by apply served_refused; auto |].
    destruct data as [|b|z|f|t|l|d]; try apply served_raised.
    match goal with |- context [if ?c then _ else _] => destruct c end;
      [by apply served_refused; auto |].
    match goal with |- context [resolve ?t ?b ?w] =>
      destruct (resolve t b w) as [[[k bed]|]|] eqn:R end;
      [| by apply served_refused; auto | apply served_raised].
    apply resolve_Some in R as [Hk _].
    case_bool_decide; [by apply served_refused; auto |].
    match goal with |- context [bind_integer ?v] =>
      destruct (bind_integer v) as [p|] end;
      [by eapply served_updated | apply served_raised].
Qed.

(** X1.  [GET /beds] answers 200 with a list that holds every record of
    the table exactly once and nothing else, and leaves the table alone. *)
Theorem get_beds_lists_every_bed_once tbl :
  exists l,
    get_beds tbl = (tbl, Response 200 (BedList l)) /\
    NoDup l.*1 /\
    (forall k bed, (k, bed) ∈ l <-> tbl !! k = Some bed).
Proof.
  exists (map_to_list tbl). split; [done |]. split.
  - apply NoDup_fst_map_to_list.
  - intros k bed. apply elem_of_map_to_list.
Qed.

(** X2.  A body that is not a JSON object never reaches the table: when
    it is falsy ([null], [false], [0], [""], [[]]) both POST handlers
    answer 400 "Empty payload", and when it is truthy (a non-empty array
    or string, a number, [true]) both end in an unhandled
    [AttributeError]; the empty object is answered 400 as well. *)
Theorem non_object_payload tbl data :
  (forall d, data <> JObj d) ->
  let answer :=
    if truthy data then Unhandled AttributeError
    else Response 400 (Msg (Literal "Empty payload")) in
  create_or_update_bed tbl (Some data) = (tbl, answer) /\
  assign_bed tbl (Some data) = (tbl, answer) /\
  create_or_update_bed tbl (Some (JObj ∅)) =
    (tbl, Response 400 (Msg (Literal "Empty payload"))) /\
  assign_bed tbl (Some (JObj ∅)) =
    (tbl, Response 400 (Msg (Literal "Empty payload"))).
Proof.
  intros Hd answer. unfold answer, create_or_update_bed, assign_bed.
  destruct data as [|b|z|f|t|l|d]; try (by destruct (Hd d));
    repeat split; try done; by destruct (truthy _).
Qed.

Lemma non_object_payload_witness :
  create_or_update_bed ∅ (Some (JArr [JStr "101"])) = (∅, Unhandled AttributeError) /\
  assign_bed ∅ (Some (JInt 0)) = (∅, Response 400 (Msg (Literal "Empty payload"))).
Proof.
  split.
  - apply (non_object_payload ∅ (JArr [JStr "101"])). discriminate.
  - apply (non_object_payload ∅ (JInt 0)). discriminate.
Defined.

(** X3.  When a handler answers with a bed record, that record is the
    row now stored under the reported bed number, and the status code is
    200 or 201. *)
Theorem response_reports_stored_row tbl r code m k bed :
  snd (handle tbl r) = Response code (MsgBed m k bed) ->
  fst (handle tbl r) !! k = Some bed /\ (code = 200 \/ code = 201).
Proof.
  destruct (handle_served tbl r) as [l|c m0|e|k0 bed0 bed1 m0 Hk Hw|k0 bed1 m0 Hk];
    simpl; intros E; simplify_eq.
  - rewrite lookup_insert_eq. auto.
  - rewrite lookup_insert_eq. auto.
Qed.

Lemma response_reports_stored_row_witness :
  fst (handle ∅ (POST_beds (upsert_payload (JStr "101") (JStr "Ward A") (JStr "Occupied"))))
    !! "101" = Some (Bed.mk (Some "Ward A") (Some "Occupied") PNull) /\
  (201 = 200 \/ 201 = 201).
Proof.
  apply (response_reports_stored_row ∅
           (POST_beds (upsert_payload (JStr "101") (JStr "Ward A") (JStr "Occupied")))
           201 (Literal "Bed created")).
  reflexivity.
Defined.

(** X4.  Every response carries the code 200, 201, 400 or 404, and a
    request that is answered with 400 or 404, or that ends in an
    exception, leaves the table exactly as it was. *)
Theorem failed_request_changes_nothing tbl r :
  match snd (handle tbl r) with
  | Response code _ =>
      (code = 200 \/ code = 201 \/ code = 400 \/ code = 404) /\
      (400 <= code -> fst (handle tbl r) = tbl)
  | Unhandled _ => fst (handle tbl r) = tbl
  end.
Proof.
  destruct (handle_served tbl r) as [l|c m0 Hc|e|k0 bed0 bed1 m0 Hk Hw|k0 bed1 m0 Hk];
    simpl; try done; (split; [tauto | lia || done]).
Qed.

Lemma handle_keeps_bed tbl r k bed :
  tbl !! k = Some bed ->
  exists bed', fst (handle tbl r) !! k = Some bed' /\ Bed.ward bed' = Bed.ward bed.
Proof.
  intros Hk. destruct (handle_served tbl r) as [l|code m|e|k' bed0 bed1 m Hk' Hw|k' bed1 m Hk'];
    simpl; eauto.
  - destruct (decide (k' = k)) as [->|Hne].
    + rewrite lookup_insert_eq. simplify_eq. eauto.
    + rewrite lookup_insert_ne by done. eauto.
  - destruct (decide (k' = k)) as [->|Hne]; [congruence |].
    rewrite lookup_insert_ne by done. eauto.
Qed.

(** X5.  No request removes a bed or moves it to another ward: a record
    present before a request is present after it, with the same ward. *)
Theorem bed_stays_in_its_ward tbl r k bed :
  tbl !! k = Some bed ->
  exists bed', fst (handle tbl r) !! k = Some bed' /\ Bed.ward bed' = Bed.ward bed.
Proof. apply handle_keeps_bed. Qed.

Lemma bed_stays_in_its_ward_witness :
  let tbl : table := {["101" := Bed.mk (Some "Ward A") (Some "Occupied") (PInt 7)]} in
  exists bed',
    fst (handle tbl (POST_beds (upsert_payload (JStr "101") (JStr "Ward A") (JStr "Available"))))
      !! "101" = Some bed' /\
    Bed.ward bed' = Some "Ward A".
Proof.
  intros tbl.
  apply (bed_stays_in_its_ward tbl _ "101" (Bed.mk (Some "Ward A") (Some "Occupied") (PInt 7))).
  reflexivity.
Defined.

(** X6.  One request touches at most one record: there is a bed number
    outside of which the table after the request agrees with the table
    before it. *)
Theorem request_touches_one_bed tbl r :
  exists k, forall k', k' <> k -> fst (handle tbl r) !! k' = tbl !! k'.
Proof.
  destruct (handle_served tbl r) as [l|code m|e|k bed0 bed1 m Hk Hw|k bed1 m Hk];
    simpl; try (by exists ""); exists k; intros k' Hne;
    by rewrite lookup_insert_ne.
Qed.

(** *** What is stored under a truthy value *)

Lemma pretty_Z_nonempty (z : Z) : pretty z <> EmptyString.
Proof.
  destruct (last_char_pretty_Z z) as (c & Hc & _). intros E.
  by rewrite E in Hc.
Qed.

Lemma bind_text_truthy v t :
  truthy v = true -> bind_text v = Ok t -> t <> Some EmptyString.
Proof.
  intros Hv Hb. destruct v as [|b|z|f|s|l|d]; simpl in *; try discriminate.
  - destruct b; by simplify_eq.
  - destruct (int64 z); simplify_eq. intros [= E]. by apply pretty_Z_nonempty in E.
  - destruct f as [| |[]|[] n rest]; by simplify_eq.
  - simplify_eq. by destruct s.
Qed.

Lemma create_or_update_bed_new_row tbl request_data k bed :
  tbl !! k = None ->
  fst (create_or_update_bed tbl request_data) !! k = Some bed ->
  k <> EmptyString /\ Bed.ward bed <> Some EmptyString.
Proof.
  intros Hk. unfold create_or_update_bed.
  destruct request_data as [data|]; [| simpl; congruence].
  destruct (negb (truthy data)); [simpl; congruence |].
  destruct data as [|b|z|f|t|l|d]; try (simpl; congruence).
  destruct (truthy (get d "bed_no")) eqn:Hb; [| simpl; congruence].
  destruct (truthy (get d "ward")) eqn:Hw; [| simpl; congruence].
  simpl negb. cbv iota. simpl orb. cbv iota.
  destruct (query_exact tbl (get d "bed_no") (get d "ward"))
    as [[[k' bed0]|]|] eqn:Q; [| | simpl; congruence].
  - apply query_exact_Some in Q as (Hk' & _ & _).
    destruct (bind_text (get_default d "status" (JStr "Available")));
      [| simpl; congruence].
    simpl. rewrite lookup_insert. case_decide; congruence.
  - destruct (insert_bed tbl (get d "bed_no") (get d "ward")
                (get_default d "status" (JStr "Available")))
      as [[tbl' [k' bed']]|] eqn:I; [| simpl; congruence].
    apply insert_bed_Ok in I as (Hk' & -> & _ & Bb & Bw & _).
    simpl. rewrite lookup_insert. case_decide; [| congruence].
    intros [= <-]. subst k'.
    pose proof (bind_text_truthy _ _ Hb Bb) as Hne.
    pose proof (bind_text_truthy _ _ Hw Bw) as Hwne.
    split; [congruence | done].
Qed.

(** X7.  In every registry that requests can produce from the empty one,
    no bed has an empty bed number and no bed has an empty ward (a ward
    can be NULL: a ward of NaN passes the check of line 202 and is stored
    as NULL). *)
Theorem beds_have_no_empty_number_or_ward tbl k bed :
  reachable tbl -> tbl !! k = Some bed ->
  k <> EmptyString /\ Bed.ward bed <> Some EmptyString.
Proof.
  intros Hreach. revert k bed.
  apply (reachable_invariant
           (fun tbl => forall k bed, tbl !! k = Some bed ->
              k <> EmptyString /\ Bed.ward bed <> Some EmptyString));
    [| | exact Hreach]; clear tbl Hreach.
  - intros k bed H. by rewrite lookup_empty in H.
  - intros tbl r IH k bed Hk.
    destruct (tbl !! k) as [bed0|] eqn:E.
    + destruct (handle_keeps_bed tbl r k bed0 E) as (bed' & Hk' & Hw).
      rewrite Hk in Hk'. simplify_eq. rewrite Hw. by apply IH.
    + destruct r as [|request_data|request_data]; simpl in Hk.
      * congruence.
      * by apply (create_or_update_bed_new_row tbl request_data).
      * destruct (assign_bed_cases tbl request_data)
          as [Heq | (k' & bed1 & p & Hk' & Heq)]; rewrite Heq in Hk.
        -- congruence.
        -- rewrite lookup_insert in Hk. case_decide; congruence.
Qed.

Lemma beds_have_no_empty_number_or_ward_witness :
  "7" <> EmptyString /\
  Bed.ward (Bed.mk None (Some "Available") PNull) <> Some EmptyString.
Proof.
  apply (beds_have_no_empty_number_or_ward
           (run ∅ [POST_beds (upsert_payload (JInt 7) (JFloat FNan) JNull)]) "7").
  - by eexists.
  - vm_compute. reflexivity.
Defined.

(** X8.  Once [POST /assign-bed] has answered 200, the same request sent
    again is answered 400 "Bed already occupied" and changes nothing. *)
Theorem assign_bed_twice tbl (d : gmap string json) m k bed :
  snd (assign_bed tbl (Some (JObj d))) = Response 200 (MsgBed m k bed) ->
  assign_bed (fst (assign_bed tbl (Some (JObj d)))) (Some (JObj d)) =
    (fst (assign_bed tbl (Some (JObj d))),
     Response 400 (Msg (Literal "Bed already occupied"))).
Proof.
  intros H.
  apply assign_bed_200 in H as (Hb & Hw & Hp & bed0 & p & Hr & Hs & Hi & -> & ->).
  rewrite assign_bed_valid by done.
  rewrite (resolve_insert_same_ward tbl _ _ k bed0
             (Bed.mk (Bed.ward bed0) (Some "Occupied") p)) by done.
  by rewrite bool_decide_eq_true_2.
Qed.

Lemma assign_bed_twice_witness :
  let tbl : table := {["101" := Bed.mk (Some "Ward A") (Some "Available") PNull]} in
  let d : gmap string json :=
    <["bedNo" := JStr "101"]> (<["ward" := JStr "a"]> {["patientId" := JStr "p-7"]}) in
  assign_bed (fst (assign_bed tbl (Some (JObj d)))) (Some (JObj d)) =
    (fst (assign_bed tbl (Some (JObj d))),
     Response 400 (Msg (Literal "Bed already occupied"))).
Proof.
  intros tbl d.
  apply (assign_bed_twice tbl d (Literal "Bed assigned") "101"
           (Bed.mk (Some "Ward A") (Some "Occupied") (PText "p-7"))).
  reflexivity.
Defined.

(** *** Requests built by [assign_payload] and [upsert_payload] *)

Lemma assign_payload_fields (b w p : json) :
  let d : gmap string json := <["bed_no" := b]> (<["ward" := w]> {["patient_id" := p]}) in
  get d "bed_no" = b /\ get d "bedNo" = JNull /\ get d "ward" = w /\
  get d "patient_id" = p /\ get d "patientId" = JNull.
Proof. repeat split. Qed.

Lemma upsert_payload_fields (b w s : json) :
  let d : gmap string json := <["bed_no" := b]> (<["ward" := w]> {["status" := s]}) in
  get d "bed_no" = b /\ get d "ward" = w /\ get_default d "status" (JStr "Available") = s.
Proof. repeat split. Qed.

Lemma assign_free_bed tbl b w bed (p : json) v :
  tbl !! b = Some bed -> Bed.ward bed = Some w ->
  Bed.status bed <> Some "Occupied" ->
  b <> EmptyString -> w <> EmptyString ->
  truthy p = true -> bind_integer p = Ok v ->
  assign_bed tbl (assign_payload (JStr b) (JStr w) p) =
    (<[b := Bed.mk (Some w) (Some "Occupied") v]> tbl,
     Response 200 (MsgBed (Literal "Bed assigned") b
                     (Bed.mk (Some w) (Some "Occupied") v))).
Proof.
  intros Hk Hward Hs Hb Hw Hp Hv. unfold assign_payload.
  destruct (assign_payload_fields (JStr b) (JStr w) p) as (F1 & F2 & F3 & F4 & F5).
  assert (truthy (JStr b) = true) as Tb by by destruct b.
  assert (truthy (JStr w) = true) as Tw by by destruct w.
  rewrite assign_bed_valid; rewrite ?F1, ?F2, ?F3, ?F4, ?F5;
    rewrite ?(py_or_truthy (JStr b)), ?(py_or_truthy p) by done; try done.
  assert (resolve tbl (JStr b) (JStr w) = Ok (Some (b, bed))) as ->.
  { unfold resolve, query_exact. cbn [bind_text mbind result_bind].
    rewrite Hk. cbn [column_eq]. by rewrite bool_decide_eq_true_2. }
  rewrite bool_decide_eq_false_2 by done. by rewrite Hv, Hward.
Qed.

Lemma vacate_known_bed tbl b w bed :
  tbl !! b = Some bed -> Bed.ward bed = Some w ->
  b <> EmptyString -> w <> EmptyString ->
  create_or_update_bed tbl (upsert_payload (JStr b) (JStr w) (JStr "Available")) =
    (<[b := Bed.mk (Some w) (Some "Available") PNull]> tbl,
     Response 200 (MsgBed (Literal "Bed status updated") b
                     (Bed.mk (Some w) (Some "Available") PNull))).
Proof.
  intros Hk Hward Hb Hw. unfold upsert_payload.
  destruct (upsert_payload_fields (JStr b) (JStr w) (JStr "Available")) as (F1 & F2 & F3).
  assert (truthy (JStr b) = true) as Tb by by destruct b.
  assert (truthy (JStr w) = true) as Tw by by destruct w.
  rewrite create_or_update_bed_valid; rewrite ?F1, ?F2, ?F3; try done.
  assert (query_exact tbl (JStr b) (JStr w) = Ok (Some (b, bed))) as ->.
  { unfold query_exact. cbn [bind_text mbind result_bind].
    rewrite Hk. cbn [column_eq]. by rewrite bool_decide_eq_true_2. }
  cbn [bind_text eq_str]. rewrite bool_decide_eq_true_2 by done. by rewrite Hward.
Qed.

(** X9.  Assigning a free bed and then vacating it through [POST /beds]
    with status "Available" gives back the registry as it was: for a bed
    [b] of ward [w] that is "Available" without a patient, and any
    patient id the database can store. *)
Theorem assign_then_vacate tbl b w (p : json) v :
  tbl !! b = Some (Bed.mk (Some w) (Some "Available") PNull) ->
  b <> EmptyString -> w <> EmptyString ->
  truthy p = true -> bind_integer p = Ok v ->
  run tbl [POST_assign_bed (assign_payload (JStr b) (JStr w) p);
           POST_beds (upsert_payload (JStr b) (JStr w) (JStr "Available"))] = tbl.
Proof.
  intros Hk Hb Hw Hp Hv. unfold run. cbn [foldl handle].
  rewrite (assign_free_bed tbl b w _ p v Hk) by done. cbn [fst].
  rewrite (vacate_known_bed _ b w (Bed.mk (Some w) (Some "Occupied") v));
    [| by rewrite lookup_insert_eq | done..].
  cbn [fst]. rewrite insert_insert_eq. by apply insert_id.
Qed.

Lemma assign_then_vacate_witness :
  let tbl : table := {["101" := Bed.mk (Some "Ward A") (Some "Available") PNull]} in
  run tbl [POST_assign_bed (assign_payload (JStr "101") (JStr "Ward A") (JInt 7));
           POST_beds (upsert_payload (JStr "101") (JStr "Ward A") (JStr "Available"))]
  = tbl.
Proof.
  intros tbl.
  apply (assign_then_vacate tbl "101" "Ward A" (JInt 7) (PInt 7));
    (reflexivity || discriminate).
Defined.

(** X10.  [POST /beds] without a status, for a bed number that no record
    has, answers 201 "Bed created" and stores the bed as "Available"
    without a patient; [GET /beds] then lists that record and otherwise
    exactly what it listed before. *)
Theorem create_unseen_bed tbl b w :
  tbl !! b = None -> b <> EmptyString -> w <> EmptyString ->
  let request_data :=
    Some (JObj (<["bed_no" := JStr b]> {["ward" := JStr w]})) in
  let bed := Bed.mk (Some w) (Some "Available") PNull in
  create_or_update_bed tbl request_data =
    (<[b := bed]> tbl, Response 201 (MsgBed (Literal "Bed created") b bed)) /\
  exists l l',
    snd (get_beds tbl) = Response 200 (BedList l) /\
    snd (get_beds (fst (create_or_update_bed tbl request_data))) =
      Response 200 (BedList l') /\
    l' ≡ₚ (b, bed) :: l.
Proof.
  intros Hk Hb Hw request_data bed.
  assert (create_or_update_bed tbl request_data =
            (<[b := bed]> tbl, Response 201 (MsgBed (Literal "Bed created") b bed))) as E.
  { unfold request_data.
    assert (truthy (JStr b) = true) as Tb by by destruct b.
    assert (truthy (JStr w) = true) as Tw by by destruct w.
    rewrite create_or_update_bed_valid; try done.
    change (get _ "bed_no") with (JStr b). change (get _ "ward") with (JStr w).
    change (get_default _ "status" _) with (JStr "Available").
    unfold query_exact, insert_bed. cbn [bind_text mbind result_bind].
    by rewrite Hk. }
  split; [exact E |].
  exists (map_to_list tbl), (map_to_list (<[b := bed]> tbl)).
  rewrite E. repeat split. by apply map_to_list_insert.
Qed.

Lemma create_unseen_bed_witness :
  let tbl : table := {["101" := Bed.mk (Some "Ward A") (Some "Occupied") (PInt 7)]} in
  let bed := Bed.mk (Some "Ward A") (Some "Available") PNull in
  create_or_update_bed tbl
    (Some (JObj (<["bed_no" := JStr "102"]> {["ward" := JStr "Ward A"]}))) =
    (<["102" := bed]> tbl, Response 201 (MsgBed (Literal "Bed created") "102" bed)).
Proof.
  intros tbl bed.
  apply (create_unseen_bed tbl "102" "Ward A"); (reflexivity || discriminate).
Defined.

(** X11.  The ward ["%"] stands for any ward: [POST /assign-bed] with
    that ward assigns the bed with the given number whatever ward it is
    stored under, provided it is not occupied. *)
Theorem percent_ward_matches_any_ward tbl b bed stored (p : json) v :
  tbl !! b = Some bed -> Bed.ward bed = Some stored ->
  Bed.status bed <> Some "Occupied" ->
  b <> EmptyString -> truthy p = true -> bind_integer p = Ok v ->
  assign_bed tbl (assign_payload (JStr b) (JStr "%") p) =
    (<[b := Bed.mk (Some stored) (Some "Occupied") v]> tbl,
     Response 200 (MsgBed (Literal "Bed assigned") b
                     (Bed.mk (Some stored) (Some "Occupied") v))).
Proof.
  intros Hk Hward Hs Hb Hp Hv. unfold assign_payload.
  destruct (assign_payload_fields (JStr b) (JStr "%") p) as (F1 & F2 & F3 & F4 & F5).
  assert (truthy (JStr b) = true) as Tb by by destruct b.
  rewrite assign_bed_valid; rewrite ?F1, ?F2, ?F3, ?F4, ?F5;
    rewrite ?(py_or_truthy (JStr b)), ?(py_or_truthy p) by done; try done.
  assert (resolve tbl (JStr b) (JStr "%") = Ok (Some (b, bed))) as ->.
  { unfold resolve, query_exact, query_fuzzy. cbn [bind_text mbind result_bind].
    rewrite Hk, Hward. cbn [column_eq]. case_bool_decide; [done |].
    change (pattern_too_long "%") with false. cbv iota.
    by rewrite contains_percent. }
  rewrite bool_decide_eq_false_2 by done. by rewrite Hv, Hward.
Qed.

Lemma percent_ward_matches_any_ward_witness :
  let tbl : table := {["101" := Bed.mk (Some "ICU") (Some "Available") PNull]} in
  assign_bed tbl (assign_payload (JStr "101") (JStr "%") (JInt 7)) =
    (<["101" := Bed.mk (Some "ICU") (Some "Occupied") (PInt 7)]> tbl,
     Response 200 (MsgBed (Literal "Bed assigned") "101"
                     (Bed.mk (Some "ICU") (Some "Occupied") (PInt 7)))).
Proof.
  intros tbl.
  apply (percent_ward_matches_any_ward tbl "101"
           (Bed.mk (Some "ICU") (Some "Available") PNull) "ICU" (JInt 7) (PInt 7));
    (reflexivity || discriminate).
Defined.

(** X12.  The [contains] query does not see the case of ASCII letters:
    its answer is the same for a ward and for that ward in lower case,
    on the side of the request as on the side of the stored value. *)
Theorem fuzzy_match_ignores_letter_case :
  (forall stored w, contains stored (lower w) = contains stored w) /\
  (forall stored w, contains (lower stored) w = contains stored w) /\
  (forall tbl bed_no w,
     query_fuzzy tbl bed_no (JStr (lower w)) = query_fuzzy tbl bed_no (JStr w)).
Proof.
  assert (forall stored w, contains stored (lower w) = contains stored w) as H.
  { intros stored w. unfold contains.
    rewrite <- (like_lower_pattern ("%" +:+ w +:+ "%")).
    by rewrite !lower_app. }
  split; [exact H | split].
  - intros stored w. unfold contains. apply like_lower_subject.
  - intros tbl bed_no w. unfold query_fuzzy.
    destruct (bind_text bed_no) as [[b|]|]; cbn [bind_text mbind result_bind]; try done.
    destruct (tbl !! b) as [bed|]; [| done].
    assert (pattern_too_long (lower w) = pattern_too_long w) as ->.
    { unfold pattern_too_long.
      by rewrite <- (lower_length ("%" +:+ w +:+ "%")), !lower_app. }
    destruct (pattern_too_long w); [done |].
    destruct (Bed.ward bed) as [stored|]; [| done]. by rewrite H.
Qed.

(** * Properties of the registrar handlers *)

Lemma max_id_bounds (tbl : patients) k p :
  tbl !! k = Some p -> exists m, max_id tbl = Some m /\ k <= m.
Proof.
  unfold max_id. revert k p.
  apply (map_fold_weak_ind
           (fun r (m : patients) => forall k p, m !! k = Some p ->
              exists x, r = Some x /\ k <= x)).
  - intros k p H. by rewrite lookup_empty in H.
  - intros i x m r Hi IH k p. rewrite lookup_insert. case_decide as E.
    + subst. intros _. destruct r as [y|]; eexists; split; try done; lia.
    + intros H. destruct (IH k p H) as (y & -> & Hy).
      eexists; split; [done | lia].
Qed.

Lemma next_id_above (tbl : patients) k p :
  tbl !! k = Some p -> k < next_id tbl.
Proof.
  intros H. unfold next_id.
  destruct (max_id_bounds tbl k p H) as (m & -> & Hm). lia.
Qed.

Lemma next_id_fresh (tbl : patients) : tbl !! next_id tbl = None.
Proof.
  destruct (tbl !! next_id tbl) as [p|] eqn:E; [| done].
  apply next_id_above in E. lia.
Qed.

Lemma bind_text_Raise v e : bind_text v = Raise e -> e = BindError.
Proof.
  destruct v as [|b|z|f|t|l|d]; simpl; try congruence.
  destruct (int64 z); congruence.
Qed.

Lemma bind_integer_Raise v e : bind_integer v = Raise e -> e = BindError.
Proof.
  destruct v as [|b|z|f|t|l|d]; simpl; try congruence.
  - destruct (int64 z); congruence.
  - destruct f; congruence.
Qed.

Lemma insert_patient_Ok tbl name age gender symptoms date doctor_id tbl' id p :
  insert_patient tbl name age gender symptoms date doctor_id = Ok (tbl', (id, p)) ->
  id = next_id tbl /\ tbl' = <[id := p]> tbl /\
  bind_text name = Ok (Some (Patient.name p)) /\
  bind_text doctor_id = Ok (Patient.doctor_id p).
Proof.
  unfold insert_patient, mbind, result_bind. intros H.
  destruct (bind_text name) as [[n|]|], (bind_integer age), (bind_text gender),
    (bind_text symptoms), (bind_text date), (bind_text doctor_id);
    simplify_eq/=. done.
Qed.

Lemma create_patient_201 tbl data code m id p :
  snd (create_patient tbl data) = PResponse code (PatientBody m id p) ->
  code = 201 /\ id = next_id tbl /\
  fst (create_patient tbl data) = <[id := p]> tbl.
Proof.
  unfold create_patient. destruct data as [| |[|b|z|f|t|l|d]]; try done.
  destruct (d !! "name") as [name|]; [| done].
  destruct (insert_patient _ _ _ _ _ _ _) as [[tbl' [id' p']]|] eqn:I; [| done].
  apply insert_patient_Ok in I as (-> & -> & _).
  cbn [fst snd]. by intros [= <- <- <- <-].
Qed.

(** X13.  When [POST /patients] answers with a patient record, the code
    is 201, the [id] in the answer was not in use and is larger than
    every [id] in use, and the table is the old one with that one row
    added (for ids within 64 bits). *)
Theorem create_patient_fresh_id tbl data code m id p :
  snd (create_patient tbl data) = PResponse code (PatientBody m id p) ->
  int64 id = true ->
  code = 201 /\
  tbl !! id = None /\
  (forall k q, tbl !! k = Some q -> k < id) /\
  fst (create_patient tbl data) = <[id := p]> tbl.
Proof.
  intros H _. apply create_patient_201 in H as (-> & -> & ->).
  split; [done |]. split; [apply next_id_fresh |]. split; [| done].
  intros k q. apply next_id_above.
Qed.

Lemma create_patient_fresh_id_witness :
  let tbl : patients :=
    {[ 4 := Patient.mk "Ann" (PInt 40) None None None (Some "d1") ]} in
  let p := Patient.mk "Bob" PNull None (Some "cough") None (Some "d2") in
  201 = 201 /\ tbl !! 5 = None /\
  (forall k q, tbl !! k = Some q -> k < 5) /\
  fst (create_patient tbl
         (Json (JObj (<["name" := JStr "Bob"]> (<["symptoms" := JStr "cough"]>
                        {["doctorId" := JStr "d2"]}))))) = <[5 := p]> tbl.
Proof.
  intros tbl p.
  apply (create_patient_fresh_id tbl _ 201 "Patient registered" 5 p); reflexivity.
Defined.

(** X14.  [POST /patients] ends in one of three ways.  It stores one new
    row under an [id] that was not in use and answers 201; or Flask turns
    the request down where the handler reads [request.json] (line 124),
    with 415 when the request does not declare a JSON body and with 400
    when the body does not parse; or the handler ends in an unhandled
    exception.  The table is unchanged unless the answer is 201.  A parsed
    body that is not an object ends in [AttributeError], an object without
    ["name"] in [KeyError], and a ["name"] of [null] in an error of the
    database. *)
Theorem create_patient_failures tbl :
  (forall request,
     (exists id p,
        tbl !! id = None /\
        create_patient tbl request =
          (<[id := p]> tbl, PResponse 201 (PatientBody "Patient registered" id p))) \/
     (exists code,
        (code = 400 \/ code = 415) /\
        create_patient tbl request = (tbl, PResponse code PErrorPage)) \/
     (exists c, create_patient tbl request = (tbl, PUnhandled c))) /\
  create_patient tbl NotJson = (tbl, PResponse 415 PErrorPage) /\
  create_patient tbl Malformed = (tbl, PResponse 400 PErrorPage) /\
  (forall data, (forall d, data <> JObj d) ->
     create_patient tbl (Json data) = (tbl, PUnhandled (Raised AttributeError))) /\
  (forall d, d !! "name" = None ->
     create_patient tbl (Json (JObj d)) = (tbl, PUnhandled (KeyError "name"))) /\
  (forall d, d !! "name" = Some JNull ->
     exists e, (e = IntegrityError \/ e = BindError) /\
               create_patient tbl (Json (JObj d)) = (tbl, PUnhandled (Raised e))).
Proof.
  split; [| split; [done | split; [done | split; [| split]]]].
  - intros request. unfold create_patient.
    destruct request as [| |[|b|z|f|t|l|d]];
      try (right; right; by eexists);
      try (right; left; eexists; split; [| done]; tauto).
    destruct (d !! "name") as [name|]; [| right; right; by eexists].
    destruct (insert_patient _ _ _ _ _ _ _) as [[tbl' [id p]]|] eqn:I;
      [| right; right; by eexists].
    apply insert_patient_Ok in I as (-> & -> & _). left.
    eexists _, p. split; [apply next_id_fresh | done].
  - intros data Hd. destruct data as [|b|z|f|t|l|d]; try done. by destruct (Hd d).
  - intros d Hn. unfold create_patient. by rewrite Hn.
  - intros d Hn. unfold create_patient. rewrite Hn.
    unfold insert_patient. cbn [bind_text mbind result_bind].
    destruct (bind_integer _) as [a|ea] eqn:A; cbn [mbind result_bind];
      [| exists ea; split; [| done]].
    + destruct (bind_text (get d "gender")) as [g|eg] eqn:G; cbn [mbind result_bind].
      * destruct (bind_text (get d "symptoms")) as [sy|es] eqn:S;
          cbn [mbind result_bind].
        -- destruct (bind_text (get d "date")) as [t|et] eqn:T; cbn [mbind result_bind].
           ++ destruct (bind_text (py_or _ _)) as [doc|ed] eqn:D;
                cbn [mbind result_bind].
              ** exists IntegrityError. by split; [left |].
              ** exists ed. split; [| done]. right. by eapply bind_text_Raise.
           ++ exists et. split; [| done]. right. by eapply bind_text_Raise.
        -- exists es. split; [| done]. right. by eapply bind_text_Raise.
      * exists eg. split; [| done]. right. by eapply bind_text_Raise.
    + right. by eapply bind_integer_Raise.
Qed.

Lemma create_patient_failures_witness :
  create_patient ∅ (Json (JArr [])) = (∅, PUnhandled (Raised AttributeError)) /\
  create_patient ∅ (Json (JObj {["age" := JInt 3]})) = (∅, PUnhandled (KeyError "name")) /\
  exists e, (e = IntegrityError \/ e = BindError) /\
            create_patient ∅ (Json (JObj {["name" := JNull]})) =
              (∅, PUnhandled (Raised e)).
Proof.
  split; [| split].
  - apply (proj1 (proj2 (proj2 (proj2 (create_patient_failures ∅)))) (JArr [])).
    discriminate.
  - apply (proj1 (proj2 (proj2 (proj2 (proj2 (create_patient_failures ∅)))))
             {["age" := JInt 3]}).
    reflexivity.
  - apply (proj2 (proj2 (proj2 (proj2 (proj2 (create_patient_failures ∅)))))
             {["name" := JNull]}).
    reflexivity.
Defined.

(** X15.  Deleting the patient that [POST /patients] has just registered
    is answered 200 "Patient deleted" and gives back the table as it was
    before the registration. *)
Theorem create_then_delete_patient tbl data code m id p :
  snd (create_patient tbl data) = PResponse code (PatientBody m id p) ->
  int64 id = true ->
  delete_patient (fst (create_patient tbl data)) id =
    (tbl, PResponse 200 (PMsg "Patient deleted")).
Proof.
  intros H Hid. apply create_patient_201 in H as (-> & -> & ->).
  unfold delete_patient. rewrite Hid, lookup_insert_eq.
  rewrite delete_insert_eq. by rewrite delete_id by apply next_id_fresh.
Qed.

Lemma create_then_delete_patient_witness :
  delete_patient (fst (create_patient ∅ (Json (JObj {["name" := JStr "Ann"]})))) 1 =
    (∅, PResponse 200 (PMsg "Patient deleted")).
Proof.
  apply (create_then_delete_patient ∅ (Json (JObj {["name" := JStr "Ann"]})) 201
           "Patient registered" 1 (Patient.mk "Ann" PNull None None None None));
    reflexivity.
Defined.

(** X16.  [DELETE /patients/<id>] removes at most the row with that id
    and keeps every other row; sent a second time it is answered 404
    "Patient not found" and changes nothing. *)
Theorem delete_patient_twice tbl patient_id :
  int64 patient_id = true ->
  delete_patient (fst (delete_patient tbl patient_id)) patient_id =
    (fst (delete_patient tbl patient_id), PResponse 404 (PMsg "Patient not found")) /\
  (forall k, k <> patient_id ->
     fst (delete_patient tbl patient_id) !! k = tbl !! k).
Proof.
  intros Hid. unfold delete_patient. rewrite Hid.
  destruct (tbl !! patient_id) as [p|] eqn:E; cbn [fst].
  - rewrite lookup_delete_eq. split; [done |].
    intros k Hk. by rewrite lookup_delete_ne.
  - by rewrite E.
Qed.

Lemma delete_patient_twice_witness :
  let tbl : patients :=
    {[ 4 := Patient.mk "Ann" (PInt 40) None None None (Some "d1") ]} in
  delete_patient (fst (delete_patient tbl 4)) 4 =
    (fst (delete_patient tbl 4), PResponse 404 (PMsg "Patient not found")) /\
  (forall k, k <> 4 -> fst (delete_patient tbl 4) !! k = tbl !! k).
Proof.
  intros tbl. apply (delete_patient_twice tbl 4). reflexivity.
Defined.

(** X17.  Ids are reused: when the patient registered last is deleted,
    the next patient registered gets the same [id] again. *)
Theorem deleted_id_is_handed_out_again tbl data data' code m id p code' m' id' p' :
  snd (create_patient tbl data) = PResponse code (PatientBody m id p) ->
  int64 id = true ->
  snd (create_patient (fst (delete_patient (fst (create_patient tbl data)) id)) data')
    = PResponse code' (PatientBody m' id' p') ->
  id' = id.
Proof.
  intros H Hid H'.
  assert (fst (delete_patient (fst (create_patient tbl data)) id) = tbl) as E.
  { apply create_patient_201 in H as (-> & -> & ->).
    unfold delete_patient. rewrite Hid, lookup_insert_eq. cbn [fst].
    rewrite delete_insert_eq. by rewrite delete_id by apply next_id_fresh. }
  rewrite E in H'.
  apply create_patient_201 in H as (_ & -> & _).
  by apply create_patient_201 in H' as (_ & -> & _).
Qed.

Lemma deleted_id_is_handed_out_again_witness : 1 = 1.
Proof.
  apply (deleted_id_is_handed_out_again ∅
           (Json (JObj {["name" := JStr "Ann"]})) (Json (JObj {["name" := JStr "Bob"]}))
           201 "Patient registered" 1 (Patient.mk "Ann" PNull None None None None)
           201 "Patient registered" 1 (Patient.mk "Bob" PNull None None None None));
    reflexivity.
Defined.

(** X18.  [GET /doctor/patients] answers 200 and leaves the table alone.
    With a non-empty [doctor_id] it lists exactly the patients whose
    [doctor_id] is that text; without the parameter, or with an empty
    one, it lists every patient.  Each entry carries the id, name,
    symptoms and doctor_id of its row. *)
Theorem doctor_patients_query_selects tbl doctor_id :
  exists l,
    doctor_patients_query tbl doctor_id = (tbl, PResponse 200 (DoctorPatientList l)) /\
    forall id n s doc,
      (id, (n, s, doc)) ∈ l <->
      exists p, tbl !! id = Some p /\
                n = Patient.name p /\ s = Patient.symptoms p /\
                doc = Patient.doctor_id p /\
                match doctor_id with
                | Some (String c x) => Patient.doctor_id p = Some (String c x)
                | _ => True
                end.
Proof.
  eexists. split; [reflexivity |].
  intros id n s doc. rewrite list_elem_of_fmap. split.
  - intros ([k p] & [= -> -> -> ->] & Hin). exists p.
    destruct doctor_id as [[|c x]|]; apply elem_of_map_to_list in Hin;
      try (by repeat split).
    apply map_lookup_filter_Some in Hin as [Hk Hd]. by repeat split.
  - intros (p & Hk & -> & -> & -> & Hd). exists (id, p). split; [done |].
    apply elem_of_map_to_list.
    destruct doctor_id as [[|c x]|]; try done.
    by apply map_lookup_filter_Some.
Qed.

(** X19.  In [POST /patients] a truthy doctor id may come under
    ["doctorId"] instead of ["doctor_id"] with the same result, and when
    ["doctor_id"] holds a truthy value, ["doctorId"] is not looked at. *)
Theorem create_patient_doctor_alias tbl (d : gmap string json) v :
  truthy v = true ->
  (d !! "doctor_id" = None -> d !! "doctorId" = None ->
   create_patient tbl (Json (JObj (<["doctorId" := v]> d))) =
   create_patient tbl (Json (JObj (<["doctor_id" := v]> d))))
  /\
  create_patient tbl (Json (JObj (<["doctor_id" := v]> d))) =
  create_patient tbl (Json (JObj (<["doctor_id" := v]> (delete "doctorId" d)))).
Proof.
  intros Hv. split.
  - intros H1 H2. unfold create_patient, get. simplify_map_eq.
    by rewrite py_or_null_l, py_or_truthy.
  - unfold create_patient, get. simplify_map_eq.
    by rewrite !(py_or_truthy v).
Qed.

Lemma create_patient_doctor_alias_witness :
  let d : gmap string json := {["name" := JStr "Ann"]} in
  create_patient ∅ (Json (JObj (<["doctorId" := JStr "d1"]> d))) =
  create_patient ∅ (Json (JObj (<["doctor_id" := JStr "d1"]> d))).
Proof.
  intros d.
  apply (proj1 (create_patient_doctor_alias ∅ d (JStr "d1") eq_refl)); reflexivity.
Defined.
